(** * Portal Launcher: the Steam discovery-and-aggregation pipeline of [main.js]

    A shallow embedding of the catalog build of [src/main.js]
    ([getSteamPaths], [parseVDF], [getSteamLibraries], [getSteamUsers],
    [readUserPlaytime], [fetchThumbnail], [isActualGame], [fetchAllGames])
    and the properties of it that the specification states.

    - [JS]    : the fragment of JavaScript the program relies on (values,
                truthiness, property reads, [parseInt], [isNaN], [&],
                [Math.max], string methods).
    - [Node]  : the host the program runs on (file system, [path.join], the
                [vdf] package, the clock, [axios]) as a record of
                observations.
    - [Steam] : the functions of [main.js], in source order, and the
                notions the properties are stated with.
    - [Scenarios] : concrete hosts and manifests for the examples.
    The theorems follow the definitions, claim by claim. *)

From Stdlib Require Import ZArith List String Ascii Bool Lia Permutation DecimalString.
Import ListNotations.

Set Warnings "-register-all".

Local Open Scope string_scope.
Local Open Scope Z_scope.

(* ================================================================== *)
(** * The JavaScript fragment *)
(* ================================================================== *)

Module JS.

(** ** Numbers

    Every number the program computes is [NaN] or an integer ([parseInt],
    a maximum, a string length).  An integer is kept as a [Z]; this is the
    value of the IEEE double as long as it stays within the safe range
    (below 2^53 in magnitude), which minutes, flags and Unix time stamps do. *)
Inductive num : Type :=
| NaN
| Num (z : Z).

Definition num_eqb (a b : num) : bool :=       (* [a === b] on numbers *)
  match a, b with
  | Num x, Num y => x =? y
  | _, _ => false                              (* NaN is equal to nothing *)
  end.

Definition num_ltb (a b : num) : bool :=       (* [a < b] *)
  match a, b with
  | Num x, Num y => x <? y
  | _, _ => false
  end.

Definition num_gtb (a b : num) : bool := num_ltb b a.   (* [a > b] *)

(** [Math.max(a, b)]: NaN as soon as one argument is NaN. *)
Definition Math_max (a b : num) : num :=
  match a, b with
  | Num x, Num y => Num (Z.max x y)
  | _, _ => NaN
  end.

(** [ToInt32]: NaN becomes 0, an integer is reduced modulo 2^32 into
    the signed 32-bit range. *)
Definition ToInt32 (a : num) : Z :=
  match a with
  | NaN => 0
  | Num z =>
      let int := z mod 2 ^ 32 in
      if 2 ^ 31 <=? int then int - 2 ^ 32 else int
  end.

Definition bitand (a b : num) : num :=         (* [a & b] *)
  Num (Z.land (ToInt32 a) (ToInt32 b)).

(** ** Characters and strings (as byte strings, ASCII case mapping) *)

Definition code (c : ascii) : N := N_of_ascii c.

Definition isDigit (c : ascii) : bool :=
  ((48 <=? code c) && (code c <=? 57))%N.

Definition digitVal (c : ascii) : Z := Z.of_N (code c) - 48.

(** White space and line terminators of the ASCII range: TAB, LF, VT, FF,
    CR and SPACE. *)
Definition isWhite (c : ascii) : bool :=
  (((9 <=? code c) && (code c <=? 13)) || (code c =? 32))%N.

Definition lowerChar (c : ascii) : ascii :=
  if ((65 <=? code c) && (code c <=? 90))%N
  then ascii_of_N (code c + 32) else c.

Fixpoint toLowerCase (s : string) : string :=
  match s with
  | EmptyString => EmptyString
  | String c r => String (lowerChar c) (toLowerCase r)
  end.

Fixpoint trimStart (s : string) : string :=
  match s with
  | EmptyString => EmptyString
  | String c r => if isWhite c then trimStart r else s
  end.

Fixpoint allWhite (s : string) : bool :=
  match s with
  | EmptyString => true
  | String c r => isWhite c && allWhite r
  end.

Fixpoint trimEnd (s : string) : string :=
  match s with
  | EmptyString => EmptyString
  | String c r => if allWhite s then EmptyString else String c (trimEnd r)
  end.

Definition trim (s : string) : string := trimEnd (trimStart s).

Definition startsWith (s p : string) : bool := String.prefix p s.

Fixpoint includes (s p : string) : bool :=     (* [s.includes(p)] *)
  String.prefix p s ||
  match s with
  | EmptyString => false
  | String _ r => includes r p
  end.

Fixpoint endsWith (s p : string) : bool :=     (* [s.endsWith(p)] *)
  String.eqb s p ||
  match s with
  | EmptyString => false
  | String _ r => endsWith r p
  end.

(** [s.replace(/\\\\/g, '/')]: the pattern is two consecutive backslashes;
    every occurrence, scanning from the left without overlap, becomes one
    forward slash. *)
Definition backslash : ascii := ascii_of_N 92.
Definition slash : ascii := ascii_of_N 47.

Fixpoint replaceDoubleBackslash (s : string) : string :=
  match s with
  | EmptyString => EmptyString
  | String c r =>
      match r with
      | String d r' =>
          if (Ascii.eqb c backslash && Ascii.eqb d backslash)%bool
          then String slash (replaceDoubleBackslash r')
          else String c (replaceDoubleBackslash r)
      | EmptyString => s
      end
  end.

(** The longest prefix of decimal digits, and what follows it. *)
Fixpoint spanDigits (s : string) : string * string :=
  match s with
  | String c r =>
      if isDigit c
      then let (d, t) := spanDigits r in (String c d, t)
      else (EmptyString, s)
  | EmptyString => (EmptyString, EmptyString)
  end.

Fixpoint digitsValue (acc : Z) (s : string) : Z :=
  match s with
  | EmptyString => acc
  | String c r => digitsValue (10 * acc + digitVal c) r
  end.

(** [parseInt(s, 10)]: leading white space is skipped, one sign is read,
    then the longest run of decimal digits; without a digit the result is
    NaN.  What follows the digits is ignored. *)
Definition parseInt (s : string) : num :=
  let t := trimStart s in
  let (neg, body) :=
    match t with
    | String c r =>
        if Ascii.eqb c "-" then (true, r)
        else if Ascii.eqb c "+" then (false, r)
        else (false, t)
    | EmptyString => (false, t)
    end in
  let (ds, _) := spanDigits body in
  match ds with
  | EmptyString => NaN
  | _ => Num (if neg then - digitsValue 0 ds else digitsValue 0 ds)
  end.

(** ** [isNaN] on a string

    [isNaN(s)] converts [s] with [ToNumber]: the string is trimmed on both
    sides; empty, it is 0; otherwise it has to be a numeric literal
    (a signed decimal with optional fraction and exponent, [Infinity], or an
    unsigned [0x], [0o] or [0b] integer), anything else is NaN.  Only whether
    the result is NaN matters to the program. *)
Fixpoint allDigits (s : string) : bool :=
  match s with
  | EmptyString => true
  | String c r => isDigit c && allDigits r
  end.

Definition nonEmpty (s : string) : bool :=
  match s with EmptyString => false | _ => true end.

Definition isHexDigit (c : ascii) : bool :=
  (isDigit c || ((65 <=? code c) && (code c <=? 70))
             || ((97 <=? code c) && (code c <=? 102)))%N.
Definition isOctDigit (c : ascii) : bool := ((48 <=? code c) && (code c <=? 55))%N.
Definition isBinDigit (c : ascii) : bool := ((48 <=? code c) && (code c <=? 49))%N.

Fixpoint allChars (p : ascii -> bool) (s : string) : bool :=
  match s with
  | EmptyString => true
  | String c r => p c && allChars p r
  end.

(** [+ digits], [- digits] or [digits], up to the end of the string. *)
Definition isSignedInteger (s : string) : bool :=
  match s with
  | String c r =>
      if (Ascii.eqb c "+" || Ascii.eqb c "-")%bool
      then nonEmpty r && allDigits r
      else allDigits s
  | EmptyString => false
  end.

Definition isExponentOpt (s : string) : bool :=
  match s with
  | EmptyString => true
  | String c r => (Ascii.eqb c "e" || Ascii.eqb c "E") && isSignedInteger r
  end.

Definition isUnsignedDecimal (s : string) : bool :=
  if String.eqb s "Infinity" then true else
  let (d1, r1) := spanDigits s in
  match r1 with
  | String c r2 =>
      if Ascii.eqb c "."
      then let (d2, r3) := spanDigits r2 in
           (nonEmpty d1 || nonEmpty d2) && isExponentOpt r3
      else nonEmpty d1 && isExponentOpt r1
  | EmptyString => nonEmpty d1
  end.

Definition isNonDecimalInteger (s : string) : bool :=
  match s with
  | String z (String x r) =>
      Ascii.eqb z "0" && nonEmpty r &&
      (((Ascii.eqb x "x" || Ascii.eqb x "X") && allChars isHexDigit r)
       || ((Ascii.eqb x "o" || Ascii.eqb x "O") && allChars isOctDigit r)
       || ((Ascii.eqb x "b" || Ascii.eqb x "B") && allChars isBinDigit r))
  | _ => false
  end.

Definition isNumericLiteral (s : string) : bool :=
  isNonDecimalInteger s ||
  match s with
  | String c r =>
      if (Ascii.eqb c "+" || Ascii.eqb c "-")%bool
      then isUnsignedDecimal r
      else isUnsignedDecimal s
  | EmptyString => false
  end.

Definition isNaN (s : string) : bool :=
  let t := trim s in
  match t with
  | EmptyString => false
  | _ => negb (isNumericLiteral t)
  end.

(** ** Objects

    The trees the [vdf] package returns are plain objects whose property
    values are strings or nested objects.  An object is kept as the list of
    its own properties in creation order. *)
Inductive tree : Type :=
| Str (s : string)
| Obj (props : list (string * tree)).

Fixpoint assoc {A : Type} (k : string) (l : list (string * A)) : option A :=
  match l with
  | [] => None
  | (k', v) :: r => if String.eqb k k' then Some v else assoc k r
  end.

(** Reading a property with a fixed name that no prototype defines
    ([o.AppState], [o.path], ...): an own property, or [undefined]
    ([None]).  A string has no such property. *)
Definition field (t : tree) (k : string) : option tree :=
  match t with
  | Obj props => assoc k props
  | Str _ => None
  end.

(** Truthiness of what such a read gives: [undefined] and the empty string
    are falsy, every object is truthy. *)
Definition truthy (v : option tree) : bool :=
  match v with
  | None => false
  | Some (Str s) => nonEmpty s
  | Some (Obj _) => true
  end.

Definition orElse (a b : option tree) : option tree :=     (* [a || b] *)
  if truthy a then a else b.

(** [ToString]: an object prints as [[object Object]]. *)
Definition toString (t : tree) : string :=
  match t with
  | Str s => s
  | Obj _ => "[object Object]"
  end.

(** The members every plain object inherits from [Object.prototype]; a read
    of one of these names on an object without such an own property yields
    a built-in function or object, never [undefined]. *)
Definition objectPrototypeMembers : list string :=
  [ "constructor"; "__defineGetter__"; "__defineSetter__"; "hasOwnProperty";
    "__lookupGetter__"; "__lookupSetter__"; "isPrototypeOf";
    "propertyIsEnumerable"; "toString"; "valueOf"; "__proto__";
    "toLocaleString" ].

Definition inherited (k : string) : bool :=
  existsb (String.eqb k) objectPrototypeMembers.

(** *** Enumeration order of [for (k in o)]

    Own properties whose name is an array index (a canonical decimal numeral
    below 2^32 - 1) come first, in ascending numeric order; the other names
    follow in creation order. *)
Definition arrayIndex (k : string) : option Z :=
  match k with
  | EmptyString => None
  | String c r =>
      if allDigits k && (negb (Ascii.eqb c "0") || negb (nonEmpty r))
      then let v := digitsValue 0 k in
           if v <? 2 ^ 32 - 1 then Some v else None
      else None
  end.

Fixpoint insertIndex (x : Z * string) (l : list (Z * string)) : list (Z * string) :=
  match l with
  | [] => [x]
  | y :: r => if fst x <=? fst y then x :: l else y :: insertIndex x r
  end.

Fixpoint indexKeys (ks : list string) : list (Z * string) :=
  match ks with
  | [] => []
  | k :: r =>
      match arrayIndex k with
      | Some i => insertIndex (i, k) (indexKeys r)
      | None => indexKeys r
      end
  end.

Definition isIndexKey (k : string) : bool :=
  match arrayIndex k with Some _ => true | None => false end.

Definition keyOrder (ks : list string) : list string :=
  map snd (indexKeys ks) ++ filter (fun k => negb (isIndexKey k)) ks.

Definition ownKeys {A : Type} (props : list (string * A)) : list string :=
  keyOrder (map fst props).

(** The characters of a string, as the one-character strings [s[0]],
    [s[1]], ... *)
Fixpoint chars (s : string) : list string :=
  match s with
  | EmptyString => []
  | String c r => String c EmptyString :: chars r
  end.

(** Decimal numeral of a natural number (the name of an index). *)
Definition indexName (n : nat) : string :=
  NilEmpty.string_of_uint (Nat.to_uint n).

(** [for (k in t)] together with [t[k]]: the own enumerable properties of an
    object, the indexed characters of a string. *)
Definition entries (t : tree) : list (string * tree) :=
  match t with
  | Obj props =>
      flat_map (fun k => match assoc k props with
                         | Some v => [(k, v)]
                         | None => []
                         end) (ownKeys props)
  | Str s =>
      combine (map indexName (seq 0 (String.length s))) (map Str (chars s))
  end.

(** [Array.from(new Set(l))]: the first occurrence of every string, in
    order. *)
Fixpoint dedupe (l : list string) : list string :=
  match l with
  | [] => []
  | x :: r => x :: filter (fun y => negb (String.eqb x y)) (dedupe r)
  end.

(** [o[k] = v] on a plain object: an own property is replaced where it
    stands, a new one is added last; assigning [__proto__] creates no
    property. *)
Fixpoint update {A : Type} (k : string) (v : A) (l : list (string * A))
  : list (string * A) :=
  match l with
  | [] => [(k, v)]
  | (k', v') :: r =>
      if String.eqb k k' then (k, v) :: r else (k', v') :: update k v r
  end.

Definition setProp {A : Type} (k : string) (v : A) (l : list (string * A))
  : list (string * A) :=
  if String.eqb k "__proto__" then l else update k v l.

(** ** JSON payloads and what reading them gives *)
Inductive json : Type :=
| JNull
| JBool (b : bool)
| JNum (n : Z)
| JStr (s : string)
| JArr (items : list json)
| JObj (props : list (string * json)).

(** A value read out of a payload: [undefined], a built-in inherited from a
    prototype, or a piece of the payload. *)
Inductive jsval : Type :=
| Undefined
| Builtin
| J (j : json).

Definition truthyJ (v : jsval) : bool :=
  match v with
  | Undefined => false
  | Builtin => true
  | J JNull => false
  | J (JBool b) => b
  | J (JNum n) => negb (n =? 0)
  | J (JStr s) => nonEmpty s
  | J (JArr _) | J (JObj _) => true
  end.

Definition inheritedOr (k : string) : jsval :=
  if inherited k then Builtin else Undefined.

(** [v[k]].  Reading a property of [undefined] or [null] throws a TypeError
    ([None]).  An own property wins over an inherited one; strings and
    arrays have their indices and [length].  Of the inherited members only
    those of [Object.prototype] are listed: the program reads a name chosen
    by its input once, in [json[appid] && json[appid].success], where a
    built-in and [undefined] lead to the same result. *)
Definition read (v : jsval) (k : string) : option jsval :=
  match v with
  | Undefined | J JNull => None
  | Builtin => Some Undefined
  | J (JObj props) =>
      Some (match assoc k props with
            | Some x => J x
            | None => inheritedOr k
            end)
  | J (JArr items) =>
      Some (if String.eqb k "length" then J (JNum (Z.of_nat (List.length items)))
            else match arrayIndex k with
                 | Some i => match nth_error items (Z.to_nat i) with
                             | Some x => J x
                             | None => inheritedOr k
                             end
                 | None => inheritedOr k
                 end)
  | J (JStr s) =>
      Some (if String.eqb k "length" then J (JNum (Z.of_nat (String.length s)))
            else match arrayIndex k with
                 | Some i => match nth_error (chars s) (Z.to_nat i) with
                             | Some c => J (JStr c)
                             | None => inheritedOr k
                             end
                 | None => inheritedOr k
                 end)
  | J (JBool _) | J (JNum _) => Some (inheritedOr k)
  end.

End JS.

(* ================================================================== *)
(** * The host: Node.js, the [vdf] and [axios] packages *)
(* ================================================================== *)

Module Node.
Import JS.

(** What [axios.get] does with one request: the promise is rejected (time
    out, network failure, a status outside 2xx) or resolved with the body
    of the response in [res.data]. *)
Inductive Response : Type :=
| Rejected
| Resolved (data : json).

(** One run of the program observes its host through these operations.
    [None] stands for a thrown exception.  The [vdf] package is not part of
    the repository: [vdf_parse] is its [parse], a function from the text of
    a file to a tree, or a SyntaxError. *)
Record Env : Type := {
  platform : string;                          (* process.platform *)
  getenv : string -> option string;           (* process.env[name] *)
  homedir : string;                           (* os.homedir() *)
  path_join : list string -> string;          (* path.join(...) *)
  existsSync : string -> bool;                (* fs.existsSync *)
  readdirSync : string -> option (list string);
  isDirectory : string -> option bool;        (* fs.statSync(p).isDirectory() *)
  readFileSync : string -> option string;     (* fs.readFileSync(p, 'utf-8') *)
  vdf_parse : string -> option tree;          (* vdf.parse *)
  dateNow : Z;                                (* Date.now(), milliseconds *)
  axiosGet : string -> Response               (* axios.get(url, {timeout}) *)
}.

End Node.

(* ================================================================== *)
(** * The program: [main.js] *)
(* ================================================================== *)

Module Steam.
Import JS Node.

(** Sequencing of steps that may throw. *)
Notation "x <- e ;; k" :=
  (match e with Some x => k | None => None end)
  (at level 61, e at next level, right associativity).

(** [(v || d)] where the program goes on to use the result as a string
    (a method call on it, an argument of [path.join]): an object in that
    place makes the call throw a TypeError. *)
Definition strOr (v : option tree) (d : string) : option string :=
  if truthy v
  then match v with
       | Some (Str s) => Some s
       | _ => None
       end
  else Some d.

(** [(v || d)] kept as a value. *)
Definition orDefault (v : option tree) (d : tree) : tree :=
  match orElse v (Some d) with
  | Some t => t
  | None => d
  end.

(** The own properties of an object in [for-in] order, with their values. *)
Definition ownEntries {A : Type} (props : list (string * A)) : list (string * A) :=
  flat_map (fun k => match assoc k props with
                     | Some v => [(k, v)]
                     | None => []
                     end) (ownKeys props).

(** A [UserPlaytimeMap]: title identifier to minutes. *)
Definition playtimes : Type := list (string * num).

(** One element of the result of [fetchAllGames]. *)
Record entry : Type := {
  appid : tree;
  title : tree;
  installDir : string;
  playtime : num;
  thumbnail : jsval;
  raw : tree
}.

(** ** [isActualGame]: the fixed tables *)
Definition nonGameAppIds : list string :=
  [ "228980"; "1070560"; "1391110"; "1628350"; "323370"; "858280"; "996510";
    "1054830"; "1113280"; "1245040"; "1420170"; "1887720"; "2180100" ].

Definition nonGamePatterns : list string :=
  [ "steamworks"; "redistributable"; "redist"; "vcredist"; "directx";
    "runtime"; "proton"; "steam linux runtime"; "common redistributables";
    "spacewar"; "steam controller"; "steam link"; "benchmark"; "demo";
    "beta"; "test"; "development"; "sdk"; "toolkit"; "editor"; "launcher";
    "updater" ].

Definition nonGameDirPatterns : list string :=
  [ "steamworks"; "redist"; "runtime"; "proton"; "common_redist" ].

(** [nonGameAppIds.has(appid)]: an object is no member of a set of strings. *)
Definition hasAppId (appid : tree) : bool :=
  match appid with
  | Str s => existsb (String.eqb s) nonGameAppIds
  | Obj _ => false
  end.

Definition isActualGame (appInfo appid : tree) : option bool :=
  rawName <- strOr (field appInfo "name") "" ;;
  let name := toLowerCase rawName in
  rawDir <- strOr (field appInfo "installdir") "" ;;
  let installDir := toLowerCase rawDir in
  if hasAppId appid then Some false
  else if existsb (includes name) nonGamePatterns then Some false
  else if existsb (includes installDir) nonGameDirPatterns then Some false
  else if negb (truthy (field appInfo "name"))
          || (String.length (trim rawName) =? 0)%nat then Some false
  else
    rawType <- strOr (field appInfo "type") "" ;;
    let toolType := toLowerCase rawType in
    if String.eqb toolType "tool" || String.eqb toolType "config"
       || String.eqb toolType "application"
    then Some false
    else Some true.

(** ** The installed-state filter of [fetchAllGames] (lines 300-304) *)
Definition stateFlags (info : tree) : num :=
  parseInt (toString (orDefault (field info "StateFlags") (Str "0"))).

(** [(stateFlags & 4) !== 4] is the test for skipping; this is its negation. *)
Definition fullyInstalled (info : tree) : bool :=
  num_eqb (bitand (stateFlags info) (Num 4)) (Num 4).

(** ** The playtime merge of [fetchAllGames] (lines 306-322) *)

(** What reading [m[id]] in a map of play times gives. *)
Inductive lookup : Type :=
| Absent                      (* undefined *)
| Inherited                   (* a built-in of the prototype *)
| Minutes (n : num).          (* an own property *)

Definition lookupPlaytime (m : playtimes) (id : string) : lookup :=
  match assoc id m with
  | Some n => Minutes n
  | None => if inherited id then Inherited else Absent
  end.

(** [userPlaytimes[user][appid] || 0] as the number [Math.max] makes of it.
    A recorded value is used unless it is falsy; a name that the map
    inherits from [Object.prototype] reads as a built-in, which [||] keeps
    and [Math.max] converts to NaN. *)
Definition userTime (m : playtimes) (id : string) : num :=
  match lookupPlaytime m id with
  | Minutes (Num z) => if z =? 0 then Num 0 else Num z
  | Minutes NaN => Num 0
  | Inherited => NaN
  | Absent => Num 0
  end.

Definition maxUserPlaytime (userPlaytimes : list (string * playtimes))
  (id : string) : num :=
  fold_left (fun playtime um => Math_max playtime (userTime (snd um) id))
            (ownEntries userPlaytimes) (Num 0).

Definition manifestFallback (info : tree) (playtime : num) : num :=
  if num_eqb playtime (Num 0) && truthy (field info "PlaytimeForever")
  then parseInt (toString (orDefault (field info "PlaytimeForever") (Str "")))
  else playtime.

(** [daysSinceUpdate < 30] with [daysSinceUpdate = (now - lastUpdated) /
    (24 * 60 * 60)]: the quotient of two integers is below 30 exactly when
    the dividend is below 30 times the divisor (the rounding of the double
    division is monotone and 30 is a double), and no comparison holds of
    NaN. *)
Definition updatedWithin30Days (now : Z) (lastUpdated : num) : bool :=
  match lastUpdated with
  | NaN => false
  | Num l => now - l <? 30 * (24 * 60 * 60)
  end.

Definition recentSentinel (now : Z) (info : tree) (playtime : num) : num :=
  if num_eqb playtime (Num 0) && truthy (field info "LastUpdated")
  then
    let lastUpdated :=
      parseInt (toString (orDefault (field info "LastUpdated") (Str ""))) in
    if updatedWithin30Days now lastUpdated then Num 1 else playtime
  else playtime.

(** ** [readUserPlaytime]: the walk through the sections (lines 94-122) *)

(** [const x = t.K || t.k; if (!x) return {}]. *)
Definition sectionOf (t : tree) (K k : string) : option tree :=
  let v := orElse (field t K) (field t k) in
  if truthy v then v else None.

Definition findApps (localConfig : tree) : option tree :=
  userStore <- sectionOf localConfig "UserLocalConfigStore" "userlocalconfigstore" ;;
  software <- sectionOf userStore "Software" "software" ;;
  valve <- sectionOf software "Valve" "valve" ;;
  steam <- sectionOf valve "Steam" "steam" ;;
  sectionOf steam "Apps" "apps".

(** The body of the loop over [apps]: the minutes to record for one title,
    if any. *)
Definition playtimeOf (appData : tree) : option num :=
  let p := orElse (field appData "Playtime") (field appData "playtime") in
  if truthy (Some appData) && truthy p
  then
    let playtime := parseInt (toString (orDefault p (Str "0"))) in
    if num_gtb playtime (Num 0) then Some playtime else None
  else None.

Definition collectPlaytimes (apps : tree) : playtimes :=
  fold_left (fun acc kv =>
               match playtimeOf (snd kv) with
               | Some p => setProp (fst kv) p acc
               | None => acc
               end)
            (entries apps) [].

(** ** [fetchThumbnail]: what the [try] block does with a response *)

(** [None]: an exception; [Some None]: the [if] is not taken;
    [Some (Some v)]: [return v]. *)
Definition thumbnailOf (id : string) (r : Response) : option (option jsval) :=
  match r with
  | Rejected => None
  | Resolved data =>
      let json := J data in
      e <- read json id ;;
      if truthyJ e
      then
        ok <- read e "success" ;;
        if truthyJ ok
        then
          d <- read e "data" ;;
          img <- read d "header_image" ;;
          Some (Some img)
        else Some None
      else Some None
  end.

Definition thumbnailUrl (id : tree) : string :=
  "https://store.steampowered.com/api/appdetails?appids=" ++ toString id.

Section Program.

Variable E : Env.

(** [process.env[name] || fallback] *)
Definition envOr (name fallback : string) : string :=
  match getenv E name with
  | Some s => if nonEmpty s then s else fallback
  | None => fallback
  end.

Definition getSteamPaths : list string :=
  let paths :=
    if String.eqb (platform E) "win32" then
      let programFiles := envOr "PROGRAMFILES" "C:\Program Files" in
      let programFilesX86 := envOr "PROGRAMFILES(X86)" "C:\Program Files (x86)" in
      [ path_join E [programFiles; "Steam"];
        path_join E [programFilesX86; "Steam"] ]
    else if String.eqb (platform E) "darwin" then
      [ path_join E [homedir E; "Library"; "Application Support"; "Steam"] ]
    else if String.eqb (platform E) "linux" then
      [ path_join E [homedir E; ".steam"; "steam"];
        path_join E [homedir E; ".local"; "share"; "Steam"] ]
    else [] in
  filter (existsSync E) paths.

(** [null] is [None]. *)
Definition parseVDF (filePath : string) : option tree :=
  match readFileSync E filePath with
  | Some data => vdf_parse E data
  | None => None
  end.

(** The body of the loop of [getSteamLibraries]: the library that one
    property of the descriptor adds, if any. *)
Definition declaredLibrary (kv : string * tree) : list string :=
  let (key, v) := kv in
  if negb (isNaN key) then
    match orDefault (field v "path") v with
    | Str libPath =>
        let libPath := replaceDoubleBackslash libPath in
        if existsSync E libPath then [path_join E [libPath; "steamapps"]] else []
    | Obj _ => []
    end
  else [].

Definition getSteamLibraries (basePath : string) : list string :=
  let libraries := [path_join E [basePath; "steamapps"]] in
  let vdfPath := path_join E [basePath; "steamapps"; "libraryfolders.vdf"] in
  if negb (existsSync E vdfPath) then libraries else
  let parsed := parseVDF vdfPath in
  if negb (truthy parsed) then libraries else
  let parsed := orDefault parsed (Obj []) in
  let folders :=
    orDefault (orElse (field parsed "LibraryFolders") (field parsed "libraryfolders"))
              (Obj []) in
  dedupe (libraries ++ flat_map declaredLibrary (entries folders))%list.

(** [filter] with a predicate that may throw. *)
Fixpoint filterM {A : Type} (p : A -> option bool) (l : list A)
  : option (list A) :=
  match l with
  | [] => Some []
  | x :: r =>
      b <- p x ;;
      r' <- filterM p r ;;
      Some (if b then x :: r' else r')
  end.

Definition getSteamUsers (basePath : string) : list string :=
  let userdataPath := path_join E [basePath; "userdata"] in
  if negb (existsSync E userdataPath) then [] else
  match
    (files <- readdirSync E userdataPath ;;
     filterM (fun f =>
                let fullPath := path_join E [userdataPath; f] in
                d <- isDirectory E fullPath ;;
                Some (d && negb (isNaN f)))
             files)
  with
  | Some users => users
  | None => []
  end.

Definition readUserPlaytime (userPath : string) : playtimes :=
  let localConfigPath := path_join E [userPath; "config"; "localconfig.vdf"] in
  if negb (existsSync E localConfigPath) then [] else
  let localConfig := parseVDF localConfigPath in
  if negb (truthy localConfig) then [] else
  match findApps (orDefault localConfig (Obj [])) with
  | Some apps => collectPlaytimes apps
  | None => []
  end.

Definition fetchThumbnail (id : tree) : jsval :=
  match thumbnailOf (toString id) (axiosGet E (thumbnailUrl id)) with
  | Some (Some v) => v
  | _ => J JNull
  end.

Definition mergedPlaytime (userPlaytimes : list (string * playtimes))
  (info id : tree) : num :=
  let playtime := maxUserPlaytime userPlaytimes (toString id) in
  let playtime := manifestFallback info playtime in
  let now := dateNow E / 1000 in
  recentSentinel now info playtime.

(** The body of the loop over the manifests of one library: [None] when it
    throws, [Some None] when the manifest is skipped ([continue]),
    [Some (Some e)] when [e] is pushed. *)
Definition processManifest (userPlaytimes : list (string * playtimes))
  (lib manifest : string) : option (option entry) :=
  let manifestPath := path_join E [lib; manifest] in
  let data := parseVDF manifestPath in
  if negb (truthy data) then Some None else
  let data := orDefault data (Obj []) in
  if negb (truthy (field data "AppState")) then Some None else
  let info := orDefault (field data "AppState") (Obj []) in
  let id := orElse (field info "appid") (field info "AppID") in
  if negb (truthy id) then Some None else
  let id := orDefault id (Obj []) in
  game <- isActualGame info id ;;
  if negb game then Some None else
  if negb (fullyInstalled info) then Some None else
  let playtime := mergedPlaytime userPlaytimes info id in
  let thumbnail := fetchThumbnail id in
  dir <- strOr (field info "installdir") "" ;;
  Some (Some {| appid := id;
                title := orDefault (field info "name") (Str "Unknown");
                installDir := path_join E [lib; "common"; dir];
                playtime := playtime;
                thumbnail := thumbnail;
                raw := info |}).

(** Running a loop body over a list, collecting what is pushed; an
    exception ends everything. *)
Fixpoint pushAll {A B : Type} (body : A -> option (list B)) (l : list A)
  : option (list B) :=
  match l with
  | [] => Some []
  | x :: r =>
      here <- body x ;;
      rest <- pushAll body r ;;
      Some (here ++ rest)%list
  end.

Definition isManifestName (f : string) : bool :=
  startsWith f "appmanifest_" && endsWith f ".acf".

Definition scanLibrary (userPlaytimes : list (string * playtimes))
  (lib : string) : option (list entry) :=
  if negb (existsSync E lib) then Some [] else
  files <- readdirSync E lib ;;
  let manifests := filter isManifestName files in
  pushAll (fun manifest =>
             r <- processManifest userPlaytimes lib manifest ;;
             Some (match r with Some e => [e] | None => [] end))
          manifests.

Definition readAllUsers (base : string) (users : list string)
  : list (string * playtimes) :=
  fold_left (fun userPlaytimes user =>
               let userPath := path_join E [base; "userdata"; user] in
               setProp user (readUserPlaytime userPath) userPlaytimes)
            users [].

Definition scanBase (base : string) : option (list entry) :=
  let libraries := getSteamLibraries base in
  let users := getSteamUsers base in
  let userPlaytimes := readAllUsers base users in
  pushAll (scanLibrary userPlaytimes) libraries.

(** [None]: the promise is rejected; [Some games]: it resolves to [games]. *)
Definition fetchAllGames : option (list entry) :=
  let steamBases := getSteamPaths in
  if (List.length steamBases =? 0)%nat then Some []
  else pushAll scanBase steamBases.

End Program.

(** ** Notions used to state the properties *)

(** A section [v] is stored in [t] under one of the two spellings the
    program probes: under the first, or under the second while the first
    gives nothing usable. *)
Definition storedAs (t : tree) (K k : string) (v : tree) : Prop :=
  truthy (Some v) = true /\
  (field t K = Some v \/ (truthy (field t K) = false /\ field t k = Some v)).

(** Every minute count of the map is a positive integer. *)
Definition positiveMinutes (m : playtimes) : Prop :=
  Forall (fun kv => exists z, snd kv = Num z /\ 0 < z) m.

(** [l] is [l'] with some elements left out. *)
Inductive subseq {A : Type} : list A -> list A -> Prop :=
| subseq_nil : subseq [] []
| subseq_skip (x : A) (l l' : list A) : subseq l l' -> subseq l (x :: l')
| subseq_take (x : A) (l l' : list A) : subseq l l' -> subseq (x :: l) (x :: l').

(** The identifier that a manifest file declares ([info.appid ||
    info.AppID]), if it has one. *)
Definition declaredId (E : Env) (lib manifest : string) : list tree :=
  match parseVDF E (path_join E [lib; manifest]) with
  | Some data =>
      match field data "AppState" with
      | Some info =>
          match orElse (field info "appid") (field info "AppID") with
          | Some id => [id]
          | None => []
          end
      | None => []
      end
  | None => []
  end.

(** The identifiers declared by the manifest files of one library, and by
    all the manifest files that a build visits: every root, every library
    of the root, every manifest file of the library, in this order.  A
    library that two roots resolve to is visited twice. *)
Definition libraryIds (E : Env) (lib : string) : list tree :=
  if existsSync E lib
  then match readdirSync E lib with
       | Some files => flat_map (declaredId E lib) (filter isManifestName files)
       | None => []
       end
  else [].

Definition visitedIds (E : Env) : list tree :=
  flat_map (fun base => flat_map (libraryIds E) (getSteamLibraries E base))
           (getSteamPaths E).

(** Whether a string starts with a backslash. *)
Definition headIsBackslash (s : string) : bool :=
  match s with
  | String c _ => Ascii.eqb c backslash
  | EmptyString => false
  end.

(** The host [E] with another network. *)
Definition withNet (E : Env) (net : string -> Response) : Env :=
  {| platform := platform E;
     getenv := getenv E;
     homedir := homedir E;
     path_join := path_join E;
     existsSync := existsSync E;
     readdirSync := readdirSync E;
     isDirectory := isDirectory E;
     readFileSync := readFileSync E;
     vdf_parse := vdf_parse E;
     dateNow := dateNow E;
     axiosGet := net |}.

(** The host [E] in which the request for [url] is answered by [r]. *)
Definition answering (E : Env) (url : string) (r : Response) : Env :=
  withNet E (fun u => if String.eqb u url then r else axiosGet E u).

Definition withThumbnail (e : entry) (v : jsval) : entry :=
  {| appid := appid e;
     title := title e;
     installDir := installDir e;
     playtime := playtime e;
     thumbnail := v;
     raw := raw e |}.

(** The entry [e] with the thumbnail that the lookup gives on the host [E]. *)
Definition refetch (E : Env) (e : entry) : entry :=
  withThumbnail e (fetchThumbnail E (appid e)).



End Steam.

(* ================================================================== *)
(** * The renderer: [src/js/script.js] *)
(* ================================================================== *)

Module Renderer.
Import JS Steam.

(** [String(z)] for an integer [z]: its decimal digits, with a minus sign
    when it is negative. *)
Definition numberToString (z : Z) : string :=
  NilZero.string_of_int (Z.to_int z).

(** [formatPlaytime(minutes)].  [!minutes] holds of 0 and of NaN;
    [Math.floor(minutes / 60)] is the floor quotient, [minutes % 60] the
    remainder with the sign of [minutes]. *)
Definition formatPlaytime (minutes : num) : string :=
  match minutes with
  | NaN => "Never played"
  | Num m =>
      if m =? 0 then "Never played" else
      let hours := m / 60 in
      let remainingMinutes := Z.rem m 60 in
      if hours =? 0 then numberToString m ++ "m"
      else if hours <? 10
      then numberToString hours ++ "h " ++ numberToString remainingMinutes ++ "m"
      else numberToString hours ++ "h"
  end.

(** The test of [filterGames]: [g.title.toLowerCase().includes(term)]; the
    method call throws on a title that is no string. *)
Definition titleIncludes (term : string) (g : entry) : option bool :=
  match title g with
  | Str t => Some (includes (toLowerCase t) term)
  | Obj _ => None
  end.

(** [filterGames(searchTerm)]: the list it assigns to [filteredGames],
    [allGames.filter(...)], before [sortGames] rearranges and renders it. *)
Definition filterGames (allGames : list entry) (searchTerm : string)
  : option (list entry) :=
  let term := toLowerCase searchTerm in
  filterM (titleIncludes term) allGames.

(** Whether a string consists of ASCII characters only. *)
Definition isAscii (s : string) : bool :=
  allChars (fun c => (code c <? 128)%N) s.

End Renderer.

(* ================================================================== *)
(** * Concrete hosts and manifests used in the examples *)
(* ================================================================== *)

Module Scenarios.
Import JS Node Steam.

(** The manifest whose only field is [StateFlags]. *)
Definition flagsManifest (flags : string) : tree :=
  Obj [("StateFlags", Str flags)].

(** A host without any file, whose clock reads [now] seconds. *)
Definition bareHost (now : Z) : Env :=
  {| platform := "linux";
     getenv := fun _ => None;
     homedir := "/home/u";
     path_join := String.concat "/";
     existsSync := fun _ => false;
     readdirSync := fun _ => None;
     isDirectory := fun _ => None;
     readFileSync := fun _ => None;
     vdf_parse := fun _ => None;
     dateNow := now * 1000;
     axiosGet := fun _ => Rejected |}.

(** A host given by its directories (path and entries) and its VDF files
    (path and the tree that [vdf.parse] makes of the text).  The text of a
    file is not spelled out: [readFileSync] returns the path in its place.
    [path.join] joins with a slash, which is what it does on segments that
    need no normalisation. *)
Definition isSome {A : Type} (o : option A) : bool :=
  match o with Some _ => true | None => false end.

Definition host (os : string) (dirs : list (string * list string))
  (vdfs : list (string * tree)) (now : Z) (net : string -> Response) : Env :=
  {| platform := os;
     getenv := fun _ => None;
     homedir := "/home/u";
     path_join := String.concat "/";
     existsSync := fun p => isSome (assoc p dirs) || isSome (assoc p vdfs);
     readdirSync := fun p => assoc p dirs;
     isDirectory := fun p =>
       if isSome (assoc p dirs) then Some true
       else if isSome (assoc p vdfs) then Some false
       else None;
     readFileSync := fun p => if isSome (assoc p vdfs) then Some p else None;
     vdf_parse := fun text => assoc text vdfs;
     dateNow := now * 1000;
     axiosGet := net |}.

Definition offline : string -> Response := fun _ => Rejected.

(** A manifest of a fully installed title. *)
Definition manifest (id name : string) (more : list (string * tree)) : tree :=
  Obj [("AppState",
        Obj ([("appid", Str id); ("name", Str name); ("installdir", Str name);
              ("StateFlags", Str "4")] ++ more))].

Definition infoOf (m : tree) : tree := orDefault (field m "AppState") (Obj []).

(** One installation with one library and one title, nobody's play time. *)
Definition oneTitle (more : list (string * tree)) : Env :=
  host "linux"
       [ ("/home/u/.steam/steam", ["steamapps"]);
         ("/home/u/.steam/steam/steamapps", ["appmanifest_440.acf"]) ]
       [ ("/home/u/.steam/steam/steamapps/appmanifest_440.acf",
          manifest "440" "Portal" more) ]
       1700000000 offline.

Definition negativeTotal : list (string * tree) := [("PlaytimeForever", Str "-5")].
Definition garbledTotal : list (string * tree) := [("PlaytimeForever", Str "n/a")].

(** The clock stands at 1700000000 s; ten days are 864000 s. *)
Definition updatedTenDaysAgo : tree := Obj [("LastUpdated", Str "1699136000")].
Definition updatedFortyDaysAgo : tree := Obj [("LastUpdated", Str "1696544000")].

(** An installation whose descriptor declares the installation itself
    (property [0], a nested section with a [path]) and a second folder
    (property [1], a bare string). *)
Definition root : string := "/home/u/.steam/steam".

Definition declaredTwice : Env :=
  host "linux"
       [ (root, ["steamapps"]);
         ("/home/u/.steam/steam/steamapps", ["libraryfolders.vdf"]);
         ("/mnt/games", ["steamapps"]);
         ("/mnt/games/steamapps", []) ]
       [ ("/home/u/.steam/steam/steamapps/libraryfolders.vdf",
          Obj [("LibraryFolders",
                Obj [("0", Obj [("path", Str root)]);
                     ("1", Str "/mnt/games")])]) ]
       1700000000 offline.

(** A user-profile directory with four entries: two profiles, a directory
    with an ordinary name and a file. *)
Definition fourEntries : Env :=
  host "linux"
       [ (root, ["userdata"]);
         ("/home/u/.steam/steam/userdata", ["1001"; "1e5"; "anonymous"; "notes.txt"]);
         ("/home/u/.steam/steam/userdata/1001", []);
         ("/home/u/.steam/steam/userdata/1e5", []);
         ("/home/u/.steam/steam/userdata/anonymous", []) ]
       [ ("/home/u/.steam/steam/userdata/notes.txt", Str "") ]
       1700000000 offline.

(** Local configurations that hold one title with 42 minutes, the section
    of the titles being named [apps]; the other sections alternate between
    the two spellings that the program probes. *)
Definition localConfigWith (apps : string) : tree :=
  Obj [("UserLocalConfigStore",
    Obj [("software",
      Obj [("Valve",
        Obj [("steam",
          Obj [(apps,
            Obj [("440", Obj [("Playtime", Str "42")])])])])])])].

(** The two installation roots of Linux, both present (the one is usually
    a link to the other), each listing the same title. *)
Definition twoRoots : Env :=
  host "linux"
       [ ("/home/u/.steam/steam", ["steamapps"]);
         ("/home/u/.steam/steam/steamapps", ["appmanifest_440.acf"]);
         ("/home/u/.local/share/Steam", ["steamapps"]);
         ("/home/u/.local/share/Steam/steamapps", ["appmanifest_440.acf"]) ]
       [ ("/home/u/.steam/steam/steamapps/appmanifest_440.acf",
          manifest "440" "Portal" []);
         ("/home/u/.local/share/Steam/steamapps/appmanifest_440.acf",
          manifest "440" "Portal" []) ]
       1700000000 offline.

(** Two titles in one library, and a store that knows both covers. *)
Definition cover (id url : string) : json :=
  JObj [(id, JObj [("success", JBool true);
                   ("data", JObj [("header_image", JStr url)])])].

Definition store : string -> Response := fun url =>
  if String.eqb url (thumbnailUrl (Str "440")) then Resolved (cover "440" "440.jpg")
  else if String.eqb url (thumbnailUrl (Str "620")) then Resolved (cover "620" "620.jpg")
  else Rejected.

Definition twoTitles : Env :=
  host "linux"
       [ ("/home/u/.steam/steam", ["steamapps"]);
         ("/home/u/.steam/steam/steamapps",
          ["appmanifest_440.acf"; "appmanifest_620.acf"]) ]
       [ ("/home/u/.steam/steam/steamapps/appmanifest_440.acf",
          manifest "440" "Portal" []);
         ("/home/u/.steam/steam/steamapps/appmanifest_620.acf",
          manifest "620" "Portal 2" []) ]
       1700000000 store.

(** An installation with two user profiles: the first has played title 440
    for 30 minutes, the second knows another title only; the manifest of
    440 declares a total of 10 minutes. *)
Definition localConfigOf (apps : list (string * tree)) : tree :=
  Obj [("UserLocalConfigStore",
    Obj [("Software",
      Obj [("Valve",
        Obj [("Steam",
          Obj [("Apps", Obj apps)])])])])].

Definition appsOfFirstUser : list (string * tree) :=
  [("440", Obj [("Playtime", Str "30")]);
   ("620", Obj [("LastPlayed", Str "1690000000")])].

Definition twoUsers : Env :=
  host "linux"
       [ (root, ["steamapps"; "userdata"]);
         ("/home/u/.steam/steam/steamapps", ["appmanifest_440.acf"]);
         ("/home/u/.steam/steam/userdata", ["1001"; "1002"]);
         ("/home/u/.steam/steam/userdata/1001", ["config"]);
         ("/home/u/.steam/steam/userdata/1002", ["config"]);
         ("/home/u/.steam/steam/userdata/1001/config", ["localconfig.vdf"]);
         ("/home/u/.steam/steam/userdata/1002/config", ["localconfig.vdf"]) ]
       [ ("/home/u/.steam/steam/steamapps/appmanifest_440.acf",
          manifest "440" "Portal" [("PlaytimeForever", Str "10")]);
         ("/home/u/.steam/steam/userdata/1001/config/localconfig.vdf",
          localConfigOf appsOfFirstUser);
         ("/home/u/.steam/steam/userdata/1002/config/localconfig.vdf",
          localConfigOf [("620", Obj [("playtime", Str "5")])]) ]
       1700000000 offline.

(** A user-profile directory with an entry that cannot be examined (a
    dangling link): [statSync] throws on it. *)
Definition danglingEntry : Env :=
  host "linux"
       [ (root, ["userdata"]);
         ("/home/u/.steam/steam/userdata", ["1001"; "ghost"]);
         ("/home/u/.steam/steam/userdata/1001", []) ]
       []
       1700000000 offline.

(** An installation whose [steamapps] is a file: it exists and cannot be
    listed. *)
Definition libraryIsFile : Env :=
  host "linux"
       [ (root, ["steamapps"]) ]
       [ ("/home/u/.steam/steam/steamapps", Str "") ]
       1700000000 offline.

(** A library with a good manifest and one whose [name] is a nested
    section. *)
Definition sectionAsName : tree :=
  Obj [("AppState",
        Obj [("appid", Str "620"); ("name", Obj [("english", Str "Portal 2")]);
             ("StateFlags", Str "4")])].

Definition oneBadManifest : Env :=
  host "linux"
       [ (root, ["steamapps"]);
         ("/home/u/.steam/steam/steamapps",
          ["appmanifest_440.acf"; "appmanifest_620.acf"]) ]
       [ ("/home/u/.steam/steam/steamapps/appmanifest_440.acf",
          manifest "440" "Portal" []);
         ("/home/u/.steam/steam/steamapps/appmanifest_620.acf", sectionAsName) ]
       1700000000 offline.

(** A manifest with a total of -5 minutes that was updated ten days ago
    (the clock stands at 1700000000 s). *)
Definition negativeTotalUpdatedRecently : list (string * tree) :=
  [("PlaytimeForever", Str "-5"); ("LastUpdated", Str "1699136000")].

(** Three users with 30, 45 and no minutes for title 440. *)
Definition threeUsers : list (string * playtimes) :=
  [("1001", [("440", Num 30)]);
   ("1002", [("440", Num 45); ("620", Num 7)]);
   ("1003", [("620", Num 90)])].

End Scenarios.

(* ================================================================== *)
(** * Properties *)
(* ================================================================== *)

Import JS Node Steam Scenarios.

(** ** The installed-state filter *)

Section BitFour.

Lemma land_4 (x : Z) : Z.land x 4 = if Z.testbit x 2 then 4 else 0.
Proof.
  apply Z.bits_inj'; intros i Hi.
  rewrite Z.land_spec.
  change 4 with (2 ^ 2).
  rewrite Z.pow2_bits_eqb by lia.
  destruct (Z.eqb_spec 2 i) as [<- | Hne].
  - rewrite andb_true_r.
    destruct (Z.testbit x 2) eqn:Hx.
    + now rewrite Z.pow2_bits_eqb by lia.
    + now rewrite Z.bits_0.
  - rewrite andb_false_r.
    destruct (Z.testbit x 2).
    + rewrite Z.pow2_bits_eqb by lia.
      symmetry; now apply Z.eqb_neq.
    + now rewrite Z.bits_0.
Qed.

Lemma testbit_low_mod (x : Z) : Z.testbit (x mod 2 ^ 32) 2 = Z.testbit x 2.
Proof. apply Z.mod_pow2_bits_low; lia. Qed.

Lemma ToInt32_bit2 (n : Z) : Z.testbit (ToInt32 (Num n)) 2 = Z.testbit n 2.
Proof.
  unfold ToInt32.
  destruct (2 ^ 31 <=? n mod 2 ^ 32).
  - rewrite <- (testbit_low_mod (n mod 2 ^ 32 - 2 ^ 32)).
    replace ((n mod 2 ^ 32 - 2 ^ 32) mod 2 ^ 32) with ((n mod 2 ^ 32) mod 2 ^ 32).
    + now rewrite !testbit_low_mod.
    + rewrite <- (Z.mod_add (n mod 2 ^ 32 - 2 ^ 32) 1 (2 ^ 32)) by lia.
      f_equal; lia.
  - apply testbit_low_mod.
Qed.

Lemma bitand_4 (n : Z) :
  num_eqb (bitand (Num n) (Num 4)) (Num 4) = Z.testbit n 2.
Proof.
  unfold bitand, num_eqb.
  change (ToInt32 (Num 4)) with 4.
  rewrite land_4, ToInt32_bit2.
  now destruct (Z.testbit n 2).
Qed.

End BitFour.

(** C1, as stated, fails: the flags value 5 is 4 + 1, the bit of value 4 is
    set in it, and the filter accepts the manifest. *)
Lemma flags_5_is_accepted :
  ~ (forall flags : string,
        In flags ["0"; "1"; "2"; "3"; "5"] ->
        fullyInstalled (flagsManifest flags) = false).
Proof.
  intros H.
  specialize (H "5" (or_intror (or_intror (or_intror (or_intror (or_introl eq_refl)))))).
  vm_compute in H. discriminate H.
Qed.

(** C1, amended.  The installed-state filter accepts a manifest exactly when
    the bit of value 4 of its parsed [StateFlags] is set (a field that does
    not parse rejects); the flags 0, 1, 2 and 3 are rejected, the flags 4
    and 5 are accepted. *)
Theorem installed_state_filter_bit4 :
  (forall info : tree,
      fullyInstalled info =
      match stateFlags info with
      | NaN => false
      | Num n => Z.testbit n 2
      end)
  /\ map (fun flags => fullyInstalled (flagsManifest flags))
         ["0"; "1"; "2"; "3"; "4"; "5"]
     = [false; false; false; false; true; true].
Proof.
  split.
  - intros info. unfold fullyInstalled.
    destruct (stateFlags info) as [| n].
    + reflexivity.
    + apply bitand_4.
  - vm_compute. reflexivity.
Qed.

(** An accepted manifest has passed the installed-state filter. *)
Lemma accepted_manifest_is_installed
  (E : Env) (ups : list (string * playtimes)) (lib manifest : string) (e : entry) :
  processManifest E ups lib manifest = Some (Some e) ->
  fullyInstalled (raw e) = true.
Proof.
  unfold processManifest.
  destruct (negb (truthy (parseVDF E _))); [discriminate |].
  destruct (negb (truthy (field _ "AppState"))); [discriminate |].
  destruct (negb (truthy (orElse _ _))); [discriminate |].
  destruct (isActualGame _ _) as [[|] |]; try discriminate.
  simpl negb. cbv iota.
  destruct (fullyInstalled _) eqn:Hinst; [| discriminate].
  simpl negb. cbv iota.
  destruct (strOr _ _) as [dir |]; [| discriminate].
  intros [= <-]. exact Hinst.
Qed.

(** ** The playtime merge *)

Section PlaytimeMerge.

Lemma orDefault_truthy (t d : tree) :
  truthy (Some t) = true -> orDefault (Some t) d = t.
Proof. intros H. unfold orDefault, orElse. now rewrite H. Qed.

Lemma assoc_In {A : Type} (k : string) (l : list (string * A)) (v : A) :
  assoc k l = Some v -> In (k, v) l.
Proof.
  induction l as [| [k' v'] r IH]; simpl; [discriminate |].
  destruct (String.eqb_spec k k') as [-> | _].
  - intros [= ->]. now left.
  - intros H. right. now apply IH.
Qed.

Lemma ownEntries_incl {A : Type} (props : list (string * A)) (kv : string * A) :
  In kv (ownEntries props) -> In kv props.
Proof.
  unfold ownEntries. rewrite in_flat_map.
  intros [k [_ Hk]].
  destruct (assoc k props) as [v |] eqn:Hv; [| contradiction].
  destruct Hk as [<- | []]. now apply assoc_In.
Qed.

(** Folding the maximum over users that all contribute 0 leaves the start
    value. *)
Lemma fold_max_zero (id : string) (l : list (string * playtimes)) (z : Z) :
  0 <= z ->
  (forall um, In um l -> userTime (snd um) id = Num 0) ->
  fold_left (fun playtime um => Math_max playtime (userTime (snd um) id))
            l (Num z) = Num z.
Proof.
  intros Hz. induction l as [| um r IH]; simpl; intros H; [reflexivity |].
  rewrite (H um (or_introl eq_refl)). simpl.
  rewrite Z.max_l by lia.
  apply IH. intros um' Hin. apply H. now right.
Qed.

Lemma maxUserPlaytime_absent (ups : list (string * playtimes)) (id : string) :
  (forall u m, In (u, m) ups -> lookupPlaytime m id = Absent) ->
  maxUserPlaytime ups id = Num 0.
Proof.
  intros H. unfold maxUserPlaytime.
  apply fold_max_zero; [lia |].
  intros [u m] Hin. simpl. unfold userTime.
  now rewrite (H u m (ownEntries_incl _ _ Hin)).
Qed.

End PlaytimeMerge.

(** The sentinel where nothing else has given a playtime.  For a manifest
    for which no user has recorded minutes and whose total-playtime field is
    absent, empty or zero, the merged playtime is the sentinel 1 exactly
    when the manifest declares a last-updated time stamp that lies strictly
    less than 30 days (30 * 24 * 60 * 60 seconds) before the current time;
    in every other case (an older time stamp, no time stamp, one that is no
    number) it is 0. *)
Theorem recent_update_sentinel
  (E : Env) (ups : list (string * playtimes)) (info id : tree) :
  (forall u m, In (u, m) ups -> lookupPlaytime m (toString id) = Absent) ->
  (truthy (field info "PlaytimeForever") = false \/
   exists s, field info "PlaytimeForever" = Some (Str s) /\ parseInt s = Num 0) ->
  let now := dateNow E / 1000 in
  (mergedPlaytime E ups info id = Num 1 \/ mergedPlaytime E ups info id = Num 0)
  /\ (mergedPlaytime E ups info id = Num 1 <->
      exists s lu, field info "LastUpdated" = Some (Str s) /\
                   parseInt s = Num lu /\
                   now - lu < 30 * (24 * 60 * 60)).
Proof.
  intros Husers Hfield now.
  assert (Hmerge : mergedPlaytime E ups info id = recentSentinel now info (Num 0)).
  { unfold mergedPlaytime. fold now.
    rewrite (maxUserPlaytime_absent _ _ Husers).
    unfold manifestFallback. simpl num_eqb.
    destruct Hfield as [-> | [s [-> Hs]]]; [reflexivity |].
    destruct s as [| c r]; [reflexivity |].
    unfold orDefault, orElse. simpl. now rewrite Hs. }
  rewrite Hmerge. unfold recentSentinel. simpl num_eqb.
  destruct (field info "LastUpdated") as [[s | props] |] eqn:Hlu.
  - (* a string *)
    destruct s as [| c r].
    + simpl. split; [now right |].
      split; [discriminate |].
      intros [s [lu [[= <-] [Hp _]]]]. discriminate Hp.
    + simpl. unfold orDefault, orElse. simpl.
      destruct (parseInt (String c r)) as [| lu] eqn:Hp; simpl.
      * split; [now right |].
        split; [discriminate |].
        intros [s [lu [[= <-] [Hp' _]]]]. congruence.
      * destruct (Z.ltb_spec (now - lu) 2592000) as [Hlt | Hge].
        -- split; [now left |].
           split; [| reflexivity].
           intros _. exists (String c r), lu. repeat split; [exact Hp | lia].
        -- split; [now right |].
           split; [discriminate |].
           intros [s [lu' [[= <-] [Hp' Hlt]]]].
           rewrite Hp in Hp'. injection Hp' as <-. lia.
  - (* a nested section: it prints as [object Object], no number *)
    simpl. unfold orDefault, orElse. simpl.
    split; [now right |].
    split; [discriminate |].
    intros [s [lu [Hs _]]]. discriminate Hs.
  - (* no field *)
    simpl. split; [now right |].
    split; [discriminate |].
    intros [s [lu [Hs _]]]. discriminate Hs.
Qed.

Lemma recent_update_sentinel_witness :
  mergedPlaytime (bareHost 1700000000) [("1001", [])] updatedTenDaysAgo (Str "440")
  = Num 1.
Proof.
  apply (recent_update_sentinel (bareHost 1700000000) [("1001", [])]
           updatedTenDaysAgo (Str "440")).
  - intros u m [[= <- <-] | []]. reflexivity.
  - left. reflexivity.
  - exists "1699136000", 1699136000.
    repeat split; vm_compute; reflexivity.
Defined.

(** The two cases of the specification's example: ten days give 1, forty
    days give 0. *)
Example sentinel_ten_and_forty_days :
  mergedPlaytime (bareHost 1700000000) [] updatedTenDaysAgo (Str "440") = Num 1
  /\ mergedPlaytime (bareHost 1700000000) [] updatedFortyDaysAgo (Str "440") = Num 0.
Proof. split; vm_compute; reflexivity. Qed.

(** C3, at the failing input.  No user has minutes for the title, the
    manifest's total-playtime field is ["-5"], which is no usable total, and
    its last update lies ten days before the current time: the merged
    playtime is -5 and not the sentinel 1, for the comparison with 0 that
    guards the sentinel comes after the fallback has stored the -5. *)
Theorem sentinel_missed_after_negative_total :
  mergedPlaytime (bareHost 1700000000) []
    (infoOf (manifest "440" "Portal" negativeTotalUpdatedRecently)) (Str "440")
  = Num (-5)
  /\ option_map (map playtime)
       (fetchAllGames (oneTitle negativeTotalUpdatedRecently))
     = Some [Num (-5)].
Proof. split; vm_compute; reflexivity. Qed.

(** As long as some user has recorded minutes, the manifest is not
    consulted: the merged value is the maximum over the users. *)
Lemma user_maximum_wins
  (E : Env) (ups : list (string * playtimes)) (info id : tree) (z : Z) :
  maxUserPlaytime ups (toString id) = Num z -> z <> 0 ->
  mergedPlaytime E ups info id = Num z.
Proof.
  intros Hmax Hz. unfold mergedPlaytime. rewrite Hmax.
  unfold manifestFallback, recentSentinel. simpl.
  rewrite (proj2 (Z.eqb_neq z 0) Hz). simpl.
  now rewrite (proj2 (Z.eqb_neq z 0) Hz).
Qed.

(** The example of the specification: 30 minutes for user A, nothing for
    user B, a manifest total of 10. *)
Example merge_30_absent_10 :
  mergedPlaytime (bareHost 1700000000)
    [("1001", [("440", Num 30)]); ("1002", [])]
    (Obj [("PlaytimeForever", Str "10")]) (Str "440") = Num 30.
Proof. vm_compute. reflexivity. Qed.

(** C2, at the failing input.  No user has minutes for the title and the
    manifest's total-playtime field is ["-5"]: the field is used although it
    is not positive, and the merged playtime is -5. *)
Theorem manifest_fallback_takes_negative_total :
  maxUserPlaytime [("1001", [])] "440" = Num 0
  /\ manifestFallback (infoOf (manifest "440" "Portal" negativeTotal)) (Num 0)
     = Num (-5)
  /\ mergedPlaytime (bareHost 1700000000) [("1001", [])]
       (infoOf (manifest "440" "Portal" negativeTotal)) (Str "440")
     = Num (-5).
Proof. repeat split; vm_compute; reflexivity. Qed.

(** C6, at the failing inputs.  The catalog built for one fully installed
    title whose manifest declares the total playtime ["-5"] has one entry,
    with playtime -5; when the field reads ["n/a"] the playtime is NaN. *)
Theorem catalog_playtime_negative_or_nan :
  option_map (map playtime) (fetchAllGames (oneTitle negativeTotal))
  = Some [Num (-5)]
  /\ option_map (map playtime) (fetchAllGames (oneTitle garbledTotal))
     = Some [NaN].
Proof. split; vm_compute; reflexivity. Qed.

(** ** Where the playtime is a non-negative integer

    The minutes recorded per user are positive; with them the maximum over
    the users is a non-negative integer, and so is the merged playtime as
    long as the manifest's total is absent or a non-negative number. *)

Section NonNegative.

Lemma update_Forall {A : Type} (P : string * A -> Prop) (k : string) (v : A)
  (l : list (string * A)) :
  P (k, v) -> Forall P l -> Forall P (update k v l).
Proof.
  intros Hv. induction 1 as [| [k' v'] r Hx Hr IH]; simpl.
  - constructor; [exact Hv | constructor].
  - destruct (String.eqb k k'); constructor; assumption.
Qed.

Lemma setProp_Forall {A : Type} (P : string * A -> Prop) (k : string) (v : A)
  (l : list (string * A)) :
  P (k, v) -> Forall P l -> Forall P (setProp k v l).
Proof.
  intros Hv Hl. unfold setProp.
  destruct (String.eqb k "__proto__"); [exact Hl |].
  now apply update_Forall.
Qed.

Lemma playtimeOf_positive (appData : tree) (p : num) :
  playtimeOf appData = Some p -> exists z, p = Num z /\ 0 < z.
Proof.
  unfold playtimeOf.
  destruct (truthy (Some appData) && truthy _); [| discriminate].
  destruct (parseInt _) as [| z]; simpl; [discriminate |].
  destruct (Z.ltb_spec 0 z); [| discriminate].
  intros [= <-]. now exists z.
Qed.

Lemma collectPlaytimes_positive (apps : tree) :
  positiveMinutes (collectPlaytimes apps).
Proof.
  unfold collectPlaytimes.
  assert (Hgen : forall l acc, positiveMinutes acc ->
    positiveMinutes
      (fold_left (fun acc kv =>
                    match playtimeOf (snd kv) with
                    | Some p => setProp (fst kv) p acc
                    | None => acc
                    end) l acc)).
  { induction l as [| kv r IH]; simpl; intros acc Hacc; [exact Hacc |].
    apply IH.
    destruct (playtimeOf (snd kv)) as [p |] eqn:Hp; [| exact Hacc].
    apply setProp_Forall; [| exact Hacc].
    simpl. now apply playtimeOf_positive with (appData := snd kv). }
  apply Hgen. constructor.
Qed.

Lemma readUserPlaytime_positive (E : Env) (userPath : string) :
  positiveMinutes (readUserPlaytime E userPath).
Proof.
  unfold readUserPlaytime.
  destruct (negb (existsSync E _)); [constructor |].
  destruct (negb (truthy _)); [constructor |].
  destruct (findApps _); [apply collectPlaytimes_positive | constructor].
Qed.

Lemma readAllUsers_positive (E : Env) (base : string) (users : list string) :
  Forall (fun um => positiveMinutes (snd um)) (readAllUsers E base users).
Proof.
  unfold readAllUsers.
  assert (Hgen : forall l acc,
    Forall (fun um : string * playtimes => positiveMinutes (snd um)) acc ->
    Forall (fun um : string * playtimes => positiveMinutes (snd um))
      (fold_left (fun userPlaytimes user =>
                    setProp user
                      (readUserPlaytime E (path_join E [base; "userdata"; user]))
                      userPlaytimes) l acc)).
  { induction l as [| u r IH]; simpl; intros acc Hacc; [exact Hacc |].
    apply IH. apply setProp_Forall; [| exact Hacc].
    apply readUserPlaytime_positive. }
  apply Hgen. constructor.
Qed.

Lemma userTime_nonnegative (m : playtimes) (id : string) :
  positiveMinutes m -> inherited id = false ->
  exists z, userTime m id = Num z /\ 0 <= z.
Proof.
  intros Hm Hid. unfold userTime, lookupPlaytime.
  destruct (assoc id m) as [n |] eqn:Hn.
  - apply assoc_In in Hn.
    unfold positiveMinutes in Hm. rewrite Forall_forall in Hm.
    destruct (Hm _ Hn) as [z [Hz Hpos]]. simpl in Hz. subst n.
    destruct (Z.eqb_spec z 0); [lia |]. exists z. split; [reflexivity | lia].
  - rewrite Hid. exists 0. split; [reflexivity | lia].
Qed.

Lemma maxUserPlaytime_nonnegative
  (ups : list (string * playtimes)) (id : string) :
  Forall (fun um => positiveMinutes (snd um)) ups -> inherited id = false ->
  exists z, maxUserPlaytime ups id = Num z /\ 0 <= z.
Proof.
  intros Hups Hid. unfold maxUserPlaytime.
  assert (Hown : Forall (fun um : string * playtimes => positiveMinutes (snd um))
                        (ownEntries ups)).
  { rewrite Forall_forall in *. intros um Hin.
    apply Hups. now apply ownEntries_incl. }
  assert (Hgen : forall l z0, 0 <= z0 ->
    Forall (fun um : string * playtimes => positiveMinutes (snd um)) l ->
    exists z, fold_left (fun playtime um =>
                           Math_max playtime (userTime (snd um) id))
                        l (Num z0) = Num z /\ 0 <= z).
  { induction l as [| um r IH]; simpl; intros z0 Hz0 Hl.
    - now exists z0.
    - inversion Hl as [| ? ? Hum Hr]; subst.
      destruct (userTime_nonnegative (snd um) id Hum Hid) as [z [-> Hz]].
      simpl. apply IH; [lia | exact Hr]. }
  apply Hgen; [lia | exact Hown].
Qed.

(** The merged playtime is a non-negative integer unless the manifest's
    total is used and is negative or no number (or the identifier names a
    member of [Object.prototype]). *)
Lemma mergedPlaytime_nonnegative
  (E : Env) (ups : list (string * playtimes)) (info id : tree) :
  Forall (fun um => positiveMinutes (snd um)) ups ->
  inherited (toString id) = false ->
  (truthy (field info "PlaytimeForever") = false \/
   exists t p, field info "PlaytimeForever" = Some t /\
               parseInt (toString t) = Num p /\ 0 <= p) ->
  exists z, mergedPlaytime E ups info id = Num z /\ 0 <= z.
Proof.
  intros Hups Hid Hfield. unfold mergedPlaytime.
  destruct (maxUserPlaytime_nonnegative ups (toString id) Hups Hid)
    as [z0 [-> Hz0]].
  assert (Hfb : exists z1, manifestFallback info (Num z0) = Num z1 /\ 0 <= z1).
  { unfold manifestFallback. simpl num_eqb.
    destruct Hfield as [-> | [t [p [Ht [Hp Hpos]]]]].
    - rewrite andb_false_r. now exists z0.
    - rewrite Ht.
      destruct ((z0 =? 0) && truthy (Some t)) eqn:Hc; [| now exists z0].
      apply andb_true_iff in Hc. destruct Hc as [_ Htr].
      rewrite (orDefault_truthy _ _ Htr), Hp. now exists p. }
  destruct Hfb as [z1 [-> Hz1]].
  unfold recentSentinel.
  destruct (num_eqb (Num z1) (Num 0) && truthy _); [| now exists z1].
  destruct (updatedWithin30Days _ _); [exists 1; split; [reflexivity | lia] |].
  now exists z1.
Qed.

End NonNegative.

(** ** The library resolver *)

Section Dedupe.

Lemma In_dedupe (x : string) (l : list string) : In x (dedupe l) <-> In x l.
Proof.
  induction l as [| y r IH]; simpl; [tauto |].
  rewrite filter_In, IH.
  destruct (String.eqb_spec y x) as [-> | Hne]; simpl.
  - tauto.
  - intuition congruence.
Qed.

Lemma NoDup_dedupe (l : list string) : NoDup (dedupe l).
Proof.
  induction l as [| y r IH]; simpl; constructor.
  - rewrite filter_In, String.eqb_refl. simpl. intros [_ H]. discriminate H.
  - now apply NoDup_filter.
Qed.

End Dedupe.

(** C7.  The list of libraries that the resolver returns for an
    installation root has no duplicate, and the root's own primary manifest
    directory occurs in it exactly once, whatever the descriptor
    declares. *)
Theorem libraries_duplicate_free (E : Env) (basePath : string) :
  NoDup (getSteamLibraries E basePath)
  /\ count_occ string_dec (getSteamLibraries E basePath)
       (path_join E [basePath; "steamapps"]) = 1%nat.
Proof.
  assert (Hone : NoDup [path_join E [basePath; "steamapps"]]).
  { constructor; [intros [] | constructor]. }
  assert (Hnd : NoDup (getSteamLibraries E basePath)).
  { unfold getSteamLibraries.
    destruct (negb (existsSync E _)); [exact Hone |].
    destruct (negb (truthy _)); [exact Hone |].
    apply NoDup_dedupe. }
  split; [exact Hnd |].
  apply NoDup_count_occ'; [exact Hnd |].
  unfold getSteamLibraries.
  destruct (negb (existsSync E _)); [now left |].
  destruct (negb (truthy _)); [now left |].
  apply In_dedupe. now left.
Qed.

(** The installation that is declared in its own descriptor: two
    libraries, the primary one once. *)
Example libraries_of_declaredTwice :
  getSteamLibraries declaredTwice root
  = ["/home/u/.steam/steam/steamapps"; "/mnt/games/steamapps"].
Proof. vm_compute. reflexivity. Qed.

(** ** The user enumerator *)

Section NumericNames.

Lemma digit_not_white (c : ascii) : isDigit c = true -> isWhite c = false.
Proof.
  unfold isDigit, isWhite. intros H.
  apply andb_true_iff in H. destruct H as [H1 H2].
  apply N.leb_le in H1. apply N.leb_le in H2.
  apply orb_false_iff. split.
  - apply andb_false_iff. right. apply N.leb_gt. lia.
  - apply N.eqb_neq. lia.
Qed.

Lemma digit_not_sign (c : ascii) :
  isDigit c = true -> (Ascii.eqb c "+" || Ascii.eqb c "-")%bool = false.
Proof.
  intros H. apply orb_false_iff.
  split; destruct (Ascii.eqb_spec c "+"), (Ascii.eqb_spec c "-");
    subst; try reflexivity; discriminate H.
Qed.

Lemma trimEnd_digits (s : string) : allDigits s = true -> trimEnd s = s.
Proof.
  induction s as [| c r IH]; simpl; [reflexivity |].
  intros H. apply andb_true_iff in H. destruct H as [Hc Hr].
  rewrite (digit_not_white c Hc). simpl. now rewrite IH.
Qed.

Lemma trim_digits (s : string) : allDigits s = true -> trim s = s.
Proof.
  intros H. unfold trim.
  destruct s as [| c r]; [reflexivity |].
  simpl in H. apply andb_true_iff in H. destruct H as [Hc Hr].
  simpl trimStart. rewrite (digit_not_white c Hc).
  apply trimEnd_digits. simpl. now rewrite Hc, Hr.
Qed.

Lemma spanDigits_digits (s : string) :
  allDigits s = true -> spanDigits s = (s, EmptyString).
Proof.
  induction s as [| c r IH]; simpl; [reflexivity |].
  intros H. apply andb_true_iff in H. destruct H as [Hc Hr].
  now rewrite Hc, (IH Hr).
Qed.

(** A name made of decimal digits converts to a number. *)
Lemma digits_are_numeric (s : string) :
  nonEmpty s = true -> allDigits s = true -> isNaN s = false.
Proof.
  intros Hne Hd. unfold isNaN. rewrite (trim_digits s Hd).
  destruct s as [| c r]; [discriminate Hne |].
  apply negb_false_iff.
  unfold isNumericLiteral. apply orb_true_iff. right.
  pose proof Hd as Hd'. simpl in Hd'.
  apply andb_true_iff in Hd'. destruct Hd' as [Hc _].
  rewrite (digit_not_sign c Hc).
  unfold isUnsignedDecimal.
  destruct (String.eqb_spec (String c r) "Infinity") as [Heq | _].
  - reflexivity.
  - now rewrite (spanDigits_digits _ Hd).
Qed.

Lemma filterM_total {A : Type} (p : A -> option bool) (d : A -> bool)
  (l : list A) :
  (forall x, In x l -> p x = Some (d x)) ->
  filterM p l = Some (filter d l).
Proof.
  induction l as [| x r IH]; simpl; intros H; [reflexivity |].
  rewrite (H x (or_introl eq_refl)).
  rewrite IH by (intros y Hy; apply H; now right).
  reflexivity.
Qed.

End NumericNames.

(** C8, as stated, fails: the directory [1e5] of the user-profile directory
    is returned although its name does not consist of digits only. *)
Lemma users_include_1e5 :
  ~ (forall u : string,
        In u (getSteamUsers fourEntries root) -> allDigits u = true).
Proof.
  intros H.
  assert (Hin : In "1e5" (getSteamUsers fourEntries root)).
  { vm_compute. right. left. reflexivity. }
  specialize (H "1e5" Hin). vm_compute in H. discriminate H.
Qed.

(** C8, amended.  When the user-profile directory exists and can be listed
    and every entry can be examined, the user enumerator returns exactly
    the entries that are directories and whose name converts to a number
    ([isNaN] is false of it), in the order of the listing; every directory
    whose name is a non-empty run of digits is among them, every entry that
    is no directory and every name that converts to NaN is left out. *)
Theorem users_are_numeric_directories
  (E : Env) (basePath : string) (files : list string) (dir : string -> bool) :
  let userdataPath := path_join E [basePath; "userdata"] in
  existsSync E userdataPath = true ->
  readdirSync E userdataPath = Some files ->
  (forall f, In f files ->
             isDirectory E (path_join E [userdataPath; f]) = Some (dir f)) ->
  getSteamUsers E basePath = filter (fun f => dir f && negb (isNaN f)) files
  /\ (forall f, In f (getSteamUsers E basePath) <->
                In f files /\ dir f = true /\ isNaN f = false)
  /\ (forall f, In f files -> dir f = true ->
                nonEmpty f = true -> allDigits f = true ->
                In f (getSteamUsers E basePath)).
Proof.
  intros userdataPath Hex Hls Hst.
  assert (Heq : getSteamUsers E basePath
                = filter (fun f => dir f && negb (isNaN f)) files).
  { unfold getSteamUsers. fold userdataPath. rewrite Hex, Hls. simpl.
    rewrite (filterM_total _ (fun f => dir f && negb (isNaN f)) files).
    - reflexivity.
    - intros f Hf. now rewrite (Hst f Hf). }
  assert (Hiff : forall f, In f (getSteamUsers E basePath) <->
                           In f files /\ dir f = true /\ isNaN f = false).
  { intros f. rewrite Heq, filter_In, andb_true_iff, negb_true_iff. tauto. }
  split; [exact Heq |]. split; [exact Hiff |].
  intros f Hf Hd Hne Hdig. apply Hiff.
  repeat split; try assumption. now apply digits_are_numeric.
Qed.

Lemma users_are_numeric_directories_witness :
  getSteamUsers fourEntries root = ["1001"; "1e5"].
Proof.
  pose proof (users_are_numeric_directories fourEntries root
                ["1001"; "1e5"; "anonymous"; "notes.txt"]
                (fun f => negb (String.eqb f "notes.txt"))) as H.
  simpl in H.
  destruct H as [H _].
  - vm_compute. reflexivity.
  - vm_compute. reflexivity.
  - intros f [<- | [<- | [<- | [<- | []]]]]; vm_compute; reflexivity.
  - rewrite H. vm_compute. reflexivity.
Defined.

(** When the listing or the examination of one entry throws, the result is
    empty. *)
Lemma users_empty_on_failure (E : Env) (basePath : string) :
  readdirSync E (path_join E [basePath; "userdata"]) = None ->
  getSteamUsers E basePath = [].
Proof.
  intros H. unfold getSteamUsers. rewrite H.
  now destruct (negb (existsSync E _)).
Qed.

(** ** No installation *)

(** On an operating system the locator has no candidates for, and on one
    where no candidate exists, the locator finds nothing. *)
Lemma no_candidate_exists (E : Env) :
  (forall p, existsSync E p = false) -> getSteamPaths E = [].
Proof.
  intros H. unfold getSteamPaths.
  repeat match goal with
         | |- context [if ?b then _ else _] => destruct b
         end; simpl; rewrite ?H; reflexivity.
Qed.

(** C9.  When the installation locator finds no root, the catalog build
    resolves to the empty list; it does not throw. *)
Theorem no_installation_gives_empty_catalog (E : Env) :
  getSteamPaths E = [] -> fetchAllGames E = Some [].
Proof.
  intros H. unfold fetchAllGames. now rewrite H.
Qed.

Lemma no_installation_gives_empty_catalog_witness :
  fetchAllGames (bareHost 1700000000) = Some [].
Proof.
  apply (no_installation_gives_empty_catalog (bareHost 1700000000)).
  vm_compute. reflexivity.
Defined.

(** ** Letter case of section names *)

(** C4, as stated, fails: a property read is by exact name.  In the tree of
    a file whose section is spelled [APPS], the names [APPS] and [apps],
    which differ in letter case only, do not give the same value. *)
Lemma lookup_is_case_sensitive :
  ~ (forall (t : tree) (k1 k2 : string),
        toLowerCase k1 = toLowerCase k2 -> field t k1 = field t k2).
Proof.
  intros H.
  specialize (H (Obj [("APPS", Obj [])]) "APPS" "apps" eq_refl).
  vm_compute in H. discriminate H.
Qed.

(** What the consumer makes of it: the play times are found under [Apps]
    and under [apps], and not under [APPS]. *)
Example apps_section_spellings :
  option_map collectPlaytimes (findApps (localConfigWith "Apps"))
    = Some [("440", Num 42)]
  /\ option_map collectPlaytimes (findApps (localConfigWith "apps"))
    = Some [("440", Num 42)]
  /\ findApps (localConfigWith "APPS") = None.
Proof. repeat split; vm_compute; reflexivity. Qed.

Lemma sectionOf_stored (t : tree) (K k : string) (v : tree) :
  storedAs t K k v -> sectionOf t K k = Some v.
Proof.
  intros [Hv [HK | [HK Hk]]]; unfold sectionOf, orElse.
  - rewrite HK, Hv. now rewrite Hv.
  - rewrite HK, Hk. now rewrite Hv.
Qed.

(** C4, amended.  A read of a parsed tree is by exact name; the walk to the
    play times probes two spellings of every section name, the capitalised
    one first and the lower-case one second.  When every section on the way
    is stored under one of its two spellings, the table of the titles is
    reached; a level at which neither spelling is present ends the walk,
    whatever other spelling is. *)
Theorem sections_found_under_two_spellings
  (localConfig userStore software valve steam apps : tree) :
  storedAs localConfig "UserLocalConfigStore" "userlocalconfigstore" userStore ->
  storedAs userStore "Software" "software" software ->
  storedAs software "Valve" "valve" valve ->
  storedAs valve "Steam" "steam" steam ->
  (storedAs steam "Apps" "apps" apps -> findApps localConfig = Some apps)
  /\ (field steam "Apps" = None -> field steam "apps" = None ->
      findApps localConfig = None).
Proof.
  intros H1 H2 H3 H4. unfold findApps.
  rewrite (sectionOf_stored _ _ _ _ H1), (sectionOf_stored _ _ _ _ H2),
          (sectionOf_stored _ _ _ _ H3), (sectionOf_stored _ _ _ _ H4).
  split.
  - apply sectionOf_stored.
  - intros HK Hk. unfold sectionOf, orElse. now rewrite HK, Hk.
Qed.

Lemma sections_found_under_two_spellings_witness :
  findApps (localConfigWith "apps")
  = Some (Obj [("440", Obj [("Playtime", Str "42")])]).
Proof.
  set (apps := Obj [("440", Obj [("Playtime", Str "42")])]).
  set (steam := Obj [("apps", apps)]).
  set (valve := Obj [("steam", steam)]).
  set (software := Obj [("Valve", valve)]).
  set (userStore := Obj [("software", software)]).
  apply (sections_found_under_two_spellings
           (localConfigWith "apps") userStore software valve steam apps).
  - split; [reflexivity | left; reflexivity].
  - split; [reflexivity | right; split; reflexivity].
  - split; [reflexivity | left; reflexivity].
  - split; [reflexivity | right; split; reflexivity].
  - split; [reflexivity | right; split; reflexivity].
Defined.

(** ** Identifiers of the catalog *)

Section Subsequences.

Context {A : Type}.

Lemma subseq_nil_l (l : list A) : subseq [] l.
Proof. induction l; constructor; assumption. Qed.

Lemma subseq_refl (l : list A) : subseq l l.
Proof. induction l; constructor; assumption. Qed.

Lemma subseq_In (l l' : list A) (x : A) : subseq l l' -> In x l -> In x l'.
Proof.
  induction 1 as [| y l l' _ IH | y l l' _ IH]; simpl; intuition.
Qed.

Lemma subseq_NoDup (l l' : list A) : subseq l l' -> NoDup l' -> NoDup l.
Proof.
  induction 1 as [| y l l' Hs IH | y l l' Hs IH]; intros Hnd.
  - constructor.
  - inversion Hnd; auto.
  - inversion Hnd as [| ? ? Hnotin Hnd']; subst.
    constructor; [| auto].
    intros Hin. apply Hnotin. now apply (subseq_In l l').
Qed.

Lemma subseq_app (l1 l1' l2 l2' : list A) :
  subseq l1 l1' -> subseq l2 l2' -> subseq (l1 ++ l2) (l1' ++ l2').
Proof.
  induction 1 as [| y l l' _ IH | y l l' _ IH]; intros H2; simpl.
  - exact H2.
  - apply subseq_skip. now apply IH.
  - apply subseq_take. now apply IH.
Qed.

End Subsequences.

Section Loops.

(** What a loop pushes is, piece by piece, drawn from what its iterations
    may push. *)
Lemma pushAll_subseq {A B C : Type} (body : A -> option (list B))
  (h : B -> C) (F : A -> list C) (l : list A) :
  (forall x o, In x l -> body x = Some o -> subseq (map h o) (F x)) ->
  forall out, pushAll body l = Some out ->
              subseq (map h out) (flat_map F l).
Proof.
  induction l as [| x r IH]; simpl; intros Hbody out Hout.
  - injection Hout as <-. constructor.
  - destruct (body x) as [here |] eqn:Hx; [| discriminate].
    destruct (pushAll body r) as [rest |] eqn:Hr; [| discriminate].
    injection Hout as <-. rewrite map_app.
    apply subseq_app.
    + apply (Hbody x here); auto.
    + apply IH; auto.
Qed.

Lemma fetchAllGames_pushAll (E : Env) :
  fetchAllGames E = pushAll (scanBase E) (getSteamPaths E).
Proof.
  unfold fetchAllGames. now destruct (getSteamPaths E).
Qed.

End Loops.

(** An accepted manifest declares the identifier of its entry. *)
Lemma accepted_manifest_declares_id
  (E : Env) (ups : list (string * playtimes)) (lib manifest : string) (e : entry) :
  processManifest E ups lib manifest = Some (Some e) ->
  declaredId E lib manifest = [appid e].
Proof.
  unfold processManifest, declaredId.
  destruct (parseVDF E _) as [data |]; [| discriminate].
  destruct (truthy (Some data)) eqn:Hdata; [| discriminate]. simpl negb.
  cbv iota. rewrite (orDefault_truthy _ _ Hdata).
  destruct (field data "AppState") as [info |]; [| discriminate].
  destruct (truthy (Some info)) eqn:Hinfo; [| discriminate]. simpl negb.
  cbv iota. rewrite (orDefault_truthy _ _ Hinfo).
  destruct (orElse (field info "appid") (field info "AppID")) as [id |];
    [| discriminate].
  destruct (truthy (Some id)) eqn:Hid; [| discriminate]. simpl negb.
  cbv iota. rewrite (orDefault_truthy _ _ Hid).
  destruct (isActualGame info id) as [[|] |]; try discriminate.
  simpl negb. cbv iota.
  destruct (fullyInstalled info); try discriminate.
  simpl negb. cbv iota.
  destruct (strOr (field info "installdir") "") as [dir |]; [| discriminate].
  intros [= <-]. reflexivity.
Qed.

Lemma scanLibrary_ids
  (E : Env) (ups : list (string * playtimes)) (lib : string) (out : list entry) :
  scanLibrary E ups lib = Some out ->
  subseq (map appid out) (libraryIds E lib).
Proof.
  unfold scanLibrary, libraryIds.
  destruct (existsSync E lib); simpl negb; cbv iota.
  - destruct (readdirSync E lib) as [files |]; [| discriminate].
    apply pushAll_subseq.
    intros m o _.
    destruct (processManifest E ups lib m) as [[e |] |] eqn:Hm;
      [| | discriminate]; intros [= <-]; simpl.
    + rewrite (accepted_manifest_declares_id _ _ _ _ _ Hm). apply subseq_refl.
    + apply subseq_nil_l.
  - intros [= <-]. constructor.
Qed.

(** With both Linux roots present and listing the same title, the
    identifiers of the catalog are not distinct. *)
Lemma two_roots_duplicate_identifier :
  ~ (forall games : list entry,
        fetchAllGames twoRoots = Some games -> NoDup (map appid games)).
Proof.
  intros H.
  assert (Hrun : option_map (map appid) (fetchAllGames twoRoots)
                 = Some [Str "440"; Str "440"])
    by (vm_compute; reflexivity).
  destruct (fetchAllGames twoRoots) as [games |]; [| discriminate Hrun].
  specialize (H games eq_refl).
  injection Hrun as Hids. rewrite Hids in H.
  inversion H as [| ? ? Hnotin _]. apply Hnotin. now left.
Qed.

(** C5, at the failing input.  Both installation roots of Linux are present
    (the one is usually a link to the other) and each lists the title 440:
    the locator returns both, each is scanned, and the catalog has two
    entries with the identifier 440. *)
Theorem two_roots_list_a_title_twice :
  getSteamPaths twoRoots
  = ["/home/u/.steam/steam"; "/home/u/.local/share/Steam"]
  /\ option_map (map appid) (fetchAllGames twoRoots)
     = Some [Str "440"; Str "440"].
Proof. split; vm_compute; reflexivity. Qed.

(** Where the identifiers come from.  The identifiers of the catalog, in
    order, are drawn from the identifiers that the visited manifest files
    declare, one entry per visit at most; nothing merges entries. *)
Theorem catalog_ids_drawn_from_manifests (E : Env) (games : list entry) :
  fetchAllGames E = Some games ->
  subseq (map appid games) (visitedIds E)
  /\ (NoDup (visitedIds E) -> NoDup (map appid games)).
Proof.
  intros Hrun. rewrite fetchAllGames_pushAll in Hrun.
  assert (Hsub : subseq (map appid games) (visitedIds E)).
  { unfold visitedIds.
    apply (pushAll_subseq (scanBase E) appid _ _) with (out := games);
      [| exact Hrun].
    intros base o _. unfold scanBase.
    apply pushAll_subseq.
    intros lib o' _. apply scanLibrary_ids. }
  split; [exact Hsub |].
  now apply subseq_NoDup.
Qed.

Lemma catalog_ids_drawn_from_manifests_witness :
  exists games, fetchAllGames (oneTitle []) = Some games
                /\ NoDup (map appid games).
Proof.
  destruct (fetchAllGames (oneTitle [])) as [games |] eqn:Hrun.
  - exists games. split; [reflexivity |].
    apply (catalog_ids_drawn_from_manifests (oneTitle []) games Hrun).
    vm_compute. constructor; [intros [] | constructor].
  - vm_compute in Hrun. discriminate Hrun.
Defined.

(** ** Thumbnails *)

Section Network.

Variable E : Env.
Variable net : string -> Response.

(** Up to the thumbnail, what a manifest yields does not depend on the
    network. *)
Lemma processManifest_withNet
  (ups : list (string * playtimes)) (lib manifest : string) :
  processManifest (withNet E net) ups lib manifest
  = option_map (option_map (refetch (withNet E net))) (processManifest E ups lib manifest).
Proof.
  unfold processManifest.
  change (parseVDF (withNet E net)) with (parseVDF E).
  change (path_join (withNet E net)) with (path_join E).
  change (mergedPlaytime (withNet E net)) with (mergedPlaytime E).
  destruct (parseVDF E _) as [data |]; [| reflexivity].
  destruct (truthy (Some data)); [| reflexivity]. simpl negb. cbv iota.
  destruct (negb (truthy (field _ "AppState"))); [reflexivity |].
  destruct (negb (truthy (orElse _ _))); [reflexivity |].
  destruct (isActualGame _ _) as [[|] |]; try reflexivity.
  simpl negb. cbv iota.
  destruct (negb (fullyInstalled _)); [reflexivity |].
  destruct (strOr _ _) as [dir |]; reflexivity.
Qed.

Lemma pushAll_map {A B : Type} (f : B -> B)
  (body body' : A -> option (list B)) (l : list A) :
  (forall x, body' x = option_map (map f) (body x)) ->
  pushAll body' l = option_map (map f) (pushAll body l).
Proof.
  intros H. induction l as [| x r IH]; simpl; [reflexivity |].
  rewrite H, IH.
  destruct (body x) as [here |]; simpl; [| reflexivity].
  destruct (pushAll body r) as [rest |]; simpl; [| reflexivity].
  now rewrite map_app.
Qed.

Lemma scanLibrary_withNet (ups : list (string * playtimes)) (lib : string) :
  scanLibrary (withNet E net) ups lib
  = option_map (map (refetch (withNet E net))) (scanLibrary E ups lib).
Proof.
  unfold scanLibrary.
  change (existsSync (withNet E net)) with (existsSync E).
  change (readdirSync (withNet E net)) with (readdirSync E).
  destruct (negb (existsSync E lib)); [reflexivity |].
  destruct (readdirSync E lib) as [files |]; [| reflexivity].
  apply pushAll_map. intros m.
  rewrite processManifest_withNet.
  destruct (processManifest E ups lib m) as [[e |] |]; reflexivity.
Qed.

Lemma scanBase_withNet (base : string) :
  scanBase (withNet E net) base = option_map (map (refetch (withNet E net))) (scanBase E base).
Proof.
  unfold scanBase.
  change (getSteamLibraries (withNet E net)) with (getSteamLibraries E).
  change (getSteamUsers (withNet E net)) with (getSteamUsers E).
  change (readAllUsers (withNet E net)) with (readAllUsers E).
  apply pushAll_map. intros lib. apply scanLibrary_withNet.
Qed.

(** The catalog with another network is the same catalog with the
    thumbnails fetched anew, entry by entry. *)
Lemma fetchAllGames_withNet :
  fetchAllGames (withNet E net) = option_map (map (refetch (withNet E net))) (fetchAllGames E).
Proof.
  rewrite !fetchAllGames_pushAll.
  change (getSteamPaths (withNet E net)) with (getSteamPaths E).
  apply pushAll_map. intros base. apply scanBase_withNet.
Qed.

End Network.

Section ThumbnailFailure.






End ThumbnailFailure.



(** The two titles with the store answering, with the request for the
    first title timing out, and with a body for it that lacks [data]. *)
Example thumbnails_of_two_titles :
  option_map (map thumbnail) (fetchAllGames twoTitles)
    = Some [J (JStr "440.jpg"); J (JStr "620.jpg")]
  /\ option_map (map thumbnail)
       (fetchAllGames (answering twoTitles (thumbnailUrl (Str "440")) Rejected))
    = Some [J JNull; J (JStr "620.jpg")]
  /\ option_map (map thumbnail)
       (fetchAllGames
          (answering twoTitles (thumbnailUrl (Str "440"))
             (Resolved (JObj [("440", JObj [("success", JBool true)])]))))
    = Some [J JNull; J (JStr "620.jpg")].
Proof. repeat split; vm_compute; reflexivity. Qed.

(* ================================================================== *)
(** * Further properties of [main.js] *)
(* ================================================================== *)

(** ** The classification [isActualGame] *)

Section Classification.

Lemma existsb_false_forall {A : Type} (p : A -> bool) (l : list A) :
  existsb p l = false <-> (forall x, In x l -> p x = false).
Proof.
  induction l as [| y r IH]; simpl.
  - split; [intros _ x [] | reflexivity].
  - rewrite orb_false_iff, IH. split.
    + intros [Hy Hr] x [<- | Hx]; auto.
    + intros H. split; [apply H; now left | intros x Hx; apply H; now right].
Qed.

Lemma strOr_truthy_string (v : option tree) (d s : string) :
  truthy v = true -> strOr v d = Some s -> v = Some (Str s).
Proof.
  unfold strOr. intros ->. destruct v as [[s' | props] |]; try discriminate.
  now intros [= ->].
Qed.

Lemma length_zero_empty (s : string) : (String.length s =? 0)%nat = false <-> s <> "".
Proof.
  destruct s; simpl; split; congruence.
Qed.

End Classification.

(** What an accepted manifest has passed. *)
Lemma isActualGame_passed (appInfo id : tree) :
  isActualGame appInfo id = Some true ->
  exists name dir type,
    field appInfo "name" = Some (Str name) /\ trim name <> ""
    /\ strOr (field appInfo "installdir") "" = Some dir
    /\ strOr (field appInfo "type") "" = Some type
    /\ hasAppId id = false
    /\ (forall p, In p nonGamePatterns -> includes (toLowerCase name) p = false)
    /\ (forall p, In p nonGameDirPatterns -> includes (toLowerCase dir) p = false)
    /\ (forall t, In t ["tool"; "config"; "application"] -> toLowerCase type <> t).
Proof.
  unfold isActualGame.
  destruct (strOr (field appInfo "name") "") as [rawName |] eqn:Hname;
    [| discriminate].
  destruct (strOr (field appInfo "installdir") "") as [rawDir |];
    [| discriminate].
  destruct (hasAppId id); [discriminate |].
  destruct (existsb (includes (toLowerCase rawName)) nonGamePatterns) eqn:Hpat;
    [discriminate |].
  destruct (existsb (includes (toLowerCase rawDir)) nonGameDirPatterns) eqn:Hdir;
    [discriminate |].
  destruct (truthy (field appInfo "name")) eqn:Htruthy; [| discriminate].
  simpl negb. rewrite orb_false_l.
  destruct (String.length (trim rawName) =? 0)%nat eqn:Hblank; [discriminate |].
  destruct (strOr (field appInfo "type") "") as [rawType |]; [| discriminate].
  destruct (String.eqb_spec (toLowerCase rawType) "tool"); [discriminate |].
  destruct (String.eqb_spec (toLowerCase rawType) "config"); [discriminate |].
  destruct (String.eqb_spec (toLowerCase rawType) "application");
    [discriminate |].
  intros _. exists rawName, rawDir, rawType.
  repeat split; try reflexivity.
  - now apply strOr_truthy_string with (d := "").
  - now apply length_zero_empty.
  - now apply existsb_false_forall.
  - now apply existsb_false_forall.
  - intros t [<- | [<- | [<- | []]]]; assumption.
Qed.

(** X1.  [isActualGame] answers [true] exactly when the name is a string
    that is not blank, the identifier is outside the exclusion set, the
    lower-cased name contains none of the name patterns, the install
    directory is a string (or absent) whose lower-cased form contains none
    of the directory patterns, and the type is a string (or absent) that is
    not [tool], [config] or [application] in any letter case. *)
Theorem isActualGame_accepts_iff (appInfo id : tree) :
  isActualGame appInfo id = Some true <->
  exists name dir type,
    field appInfo "name" = Some (Str name) /\ trim name <> ""
    /\ strOr (field appInfo "installdir") "" = Some dir
    /\ strOr (field appInfo "type") "" = Some type
    /\ hasAppId id = false
    /\ (forall p, In p nonGamePatterns -> includes (toLowerCase name) p = false)
    /\ (forall p, In p nonGameDirPatterns -> includes (toLowerCase dir) p = false)
    /\ (forall t, In t ["tool"; "config"; "application"] -> toLowerCase type <> t).
Proof.
  split; [apply isActualGame_passed |]. unfold isActualGame.
  intros [name [dir [type [Hname [Hblank [Hdir [Htype [Hid [Hpat [Hdpat Hty]]]]]]]]]].
  assert (Hne : nonEmpty name = true).
  { destruct name; [now elim Hblank | reflexivity]. }
  rewrite Hname. unfold strOr at 1. simpl truthy. rewrite Hne.
  rewrite Hdir, Hid.
  rewrite (proj2 (existsb_false_forall _ _) Hpat).
  rewrite (proj2 (existsb_false_forall _ _) Hdpat).
  simpl negb. rewrite orb_false_l.
  rewrite (proj2 (length_zero_empty _) Hblank).
  rewrite Htype.
  destruct (String.eqb_spec (toLowerCase type) "tool") as [H |];
    [elim (Hty "tool"); simpl; auto |].
  destruct (String.eqb_spec (toLowerCase type) "config") as [H |];
    [elim (Hty "config"); simpl; auto |].
  destruct (String.eqb_spec (toLowerCase type) "application") as [H |];
    [elim (Hty "application"); simpl; auto |].
  reflexivity.
Qed.

Example a_game_is_accepted :
  isActualGame (infoOf (manifest "440" "Portal" [])) (Str "440") = Some true.
Proof. vm_compute. reflexivity. Qed.

Section LetterCase.

Lemma prefix_toLowerCase (p s : string) :
  String.prefix p s = true ->
  String.prefix (toLowerCase p) (toLowerCase s) = true.
Proof.
  revert s. induction p as [| c p IH]; intros s;
    [destruct s; reflexivity |].
  destruct s as [| d s]; simpl; [discriminate |].
  destruct (Ascii.ascii_dec c d) as [-> | Hne]; [| discriminate].
  intros H. destruct (Ascii.ascii_dec (lowerChar d) (lowerChar d)); [| congruence].
  now apply IH.
Qed.

Lemma includes_toLowerCase (s p : string) :
  includes s p = true -> includes (toLowerCase s) (toLowerCase p) = true.
Proof.
  induction s as [| c s IH]; simpl; intros H.
  - apply orb_true_iff in H. destruct H as [H | H]; [| discriminate].
    apply orb_true_iff. left. now apply (prefix_toLowerCase p "").
  - apply orb_true_iff in H. apply orb_true_iff. destruct H as [H | H].
    + left. now apply (prefix_toLowerCase p (String c s)).
    + right. now apply IH.
Qed.

Lemma strOr_string (s : string) : strOr (Some (Str s)) "" = Some s.
Proof. unfold strOr. simpl. now destruct s. Qed.

End LetterCase.

(** X2.  A manifest whose name contains, in any letter case, one of the
    name patterns ([demo], [beta], [sdk], ...) is never accepted: the
    classification answers [false] (or throws, when the install directory
    is a nested section). *)
Theorem name_pattern_rejects_any_case (appInfo id : tree) (name w : string) :
  field appInfo "name" = Some (Str name) ->
  includes name w = true ->
  In (toLowerCase w) nonGamePatterns ->
  isActualGame appInfo id <> Some true
  /\ (forall dir, strOr (field appInfo "installdir") "" = Some dir ->
                  isActualGame appInfo id = Some false).
Proof.
  intros Hname Hinc Hpat.
  assert (Hex : existsb (includes (toLowerCase name)) nonGamePatterns = true).
  { apply existsb_exists. exists (toLowerCase w).
    split; [exact Hpat | now apply includes_toLowerCase]. }
  unfold isActualGame. rewrite Hname, strOr_string.
  destruct (strOr (field appInfo "installdir") "") as [rawDir |].
  - rewrite Hex.
    split; [destruct (hasAppId id); discriminate |].
    intros dir _. now destruct (hasAppId id).
  - split; [discriminate | intros dir H; discriminate H].
Qed.

Lemma name_pattern_rejects_any_case_witness :
  isActualGame (Obj [("name", Str "Demolition Squad")]) (Str "440") = Some false.
Proof.
  refine (proj2 (name_pattern_rejects_any_case
                   (Obj [("name", Str "Demolition Squad")]) (Str "440")
                   "Demolition Squad" "Demo" _ _ _) "" _);
    try reflexivity.
  simpl. tauto.
Defined.

(** ** What every entry of the catalog satisfies *)

Section CatalogEntries.

Lemma pushAll_Forall {A B : Type} (body : A -> option (list B))
  (P : B -> Prop) (l : list A) :
  (forall x o, In x l -> body x = Some o -> Forall P o) ->
  forall out, pushAll body l = Some out -> Forall P out.
Proof.
  induction l as [| x r IH]; simpl; intros Hbody out Hout.
  - injection Hout as <-. constructor.
  - destruct (body x) as [here |] eqn:Hx; [| discriminate].
    destruct (pushAll body r) as [rest |] eqn:Hr; [| discriminate].
    injection Hout as <-. apply Forall_app. split.
    + apply (Hbody x here); [now left | exact Hx].
    + apply IH; [| reflexivity].
      intros y o Hy. apply Hbody. now right.
Qed.

(** Everything that one accepted manifest has gone through. *)
Lemma processManifest_accepted
  (E : Env) (ups : list (string * playtimes)) (lib manifest : string) (e : entry) :
  processManifest E ups lib manifest = Some (Some e) ->
  exists data info id dir,
    parseVDF E (path_join E [lib; manifest]) = Some data
    /\ field data "AppState" = Some info /\ truthy (Some info) = true
    /\ orElse (field info "appid") (field info "AppID") = Some id
    /\ truthy (Some id) = true
    /\ isActualGame info id = Some true
    /\ fullyInstalled info = true
    /\ strOr (field info "installdir") "" = Some dir
    /\ e = {| appid := id;
              title := orDefault (field info "name") (Str "Unknown");
              installDir := path_join E [lib; "common"; dir];
              playtime := mergedPlaytime E ups info id;
              thumbnail := fetchThumbnail E id;
              raw := info |}.
Proof.
  unfold processManifest.
  destruct (parseVDF E _) as [data |] eqn:Hparse; [| discriminate].
  destruct (truthy (Some data)) eqn:Hdata; [| discriminate]. simpl negb.
  cbv iota. rewrite (orDefault_truthy _ _ Hdata).
  destruct (field data "AppState") as [info |] eqn:Hstate; [| discriminate].
  destruct (truthy (Some info)) eqn:Hinfo; [| discriminate]. simpl negb.
  cbv iota. rewrite (orDefault_truthy _ _ Hinfo).
  destruct (orElse (field info "appid") (field info "AppID")) as [id |] eqn:Hor;
    [| discriminate].
  destruct (truthy (Some id)) eqn:Hid; [| discriminate]. simpl negb.
  cbv iota. rewrite (orDefault_truthy _ _ Hid).
  destruct (isActualGame info id) as [[|] |] eqn:Hgame; try discriminate.
  simpl negb. cbv iota.
  destruct (fullyInstalled info) eqn:Hinst; try discriminate.
  simpl negb. cbv iota.
  destruct (strOr (field info "installdir") "") as [dir |] eqn:Hdir;
    [| discriminate].
  intros [= <-]. exists data, info, id, dir. repeat split; assumption.
Qed.

(** A property of every accepted manifest of every library of every root is
    a property of every entry of the catalog. *)
Lemma catalog_Forall (E : Env) (P : entry -> Prop) :
  (forall base lib files manifest e,
      In base (getSteamPaths E) -> In lib (getSteamLibraries E base) ->
      existsSync E lib = true -> readdirSync E lib = Some files ->
      In manifest files -> isManifestName manifest = true ->
      processManifest E (readAllUsers E base (getSteamUsers E base))
                      lib manifest = Some (Some e) ->
      P e) ->
  forall games, fetchAllGames E = Some games -> Forall P games.
Proof.
  intros HP games Hrun. rewrite fetchAllGames_pushAll in Hrun.
  revert games Hrun. apply pushAll_Forall.
  intros base o Hbase. unfold scanBase. apply pushAll_Forall.
  intros lib o' Hlib. unfold scanLibrary.
  destruct (existsSync E lib) eqn:Hex; simpl negb; cbv iota.
  - destruct (readdirSync E lib) as [files |] eqn:Hls; [| discriminate].
    apply pushAll_Forall. intros m o'' Hm'.
    apply filter_In in Hm'. destruct Hm' as [Hin Hname].
    destruct (processManifest _ _ lib m) as [[e |] |] eqn:Hm;
      [| | discriminate]; intros [= <-]; constructor; [| constructor].
    now apply (HP base lib files m e).
  - intros [= <-]. constructor.
Qed.

End CatalogEntries.

(** X3.  Every entry of the catalog has a title that is a string and not
    blank, namely the name its manifest declares; the replacement title
    [Unknown] is never used. *)
Theorem catalog_titles_are_names (E : Env) (games : list entry) :
  fetchAllGames E = Some games ->
  Forall (fun g => exists name,
              title g = Str name /\ trim name <> ""
              /\ field (raw g) "name" = Some (Str name))
         games.
Proof.
  apply catalog_Forall.
  intros base lib files m e _ _ _ _ _ _ Hm.
  destruct (processManifest_accepted _ _ _ _ _ Hm)
    as [data [info [id [dir [_ [_ [_ [_ [_ [Hgame [_ [_ ->]]]]]]]]]]]].
  destruct (isActualGame_passed _ _ Hgame)
    as [name [_ [_ [Hname [Hblank _]]]]].
  exists name. simpl. rewrite Hname. repeat split; try assumption.
  apply orDefault_truthy. simpl.
  destruct name; [now elim Hblank | reflexivity].
Qed.

Lemma catalog_titles_are_names_witness :
  exists games, fetchAllGames twoTitles = Some games
                /\ Forall (fun g => exists name,
                               title g = Str name /\ trim name <> ""
                               /\ field (raw g) "name" = Some (Str name))
                          games.
Proof.
  destruct (fetchAllGames twoTitles) as [games |] eqn:Hrun.
  - exists games. split; [reflexivity |].
    exact (catalog_titles_are_names twoTitles games Hrun).
  - vm_compute in Hrun. discriminate Hrun.
Defined.

(** X4.  Every entry of the catalog stems from a manifest that passed the
    classification and the installed-state filter: its raw fields are
    accepted by [isActualGame], have the bit of value 4 set in [StateFlags],
    declare the entry's identifier ([appid], else [AppID]), and the
    identifier is none of the excluded ones. *)
Theorem catalog_entries_passed_both_filters (E : Env) (games : list entry) :
  fetchAllGames E = Some games ->
  Forall (fun g =>
            isActualGame (raw g) (appid g) = Some true
            /\ fullyInstalled (raw g) = true
            /\ orElse (field (raw g) "appid") (field (raw g) "AppID")
               = Some (appid g)
            /\ truthy (Some (appid g)) = true
            /\ (forall id, appid g = Str id -> ~ In id nonGameAppIds))
         games.
Proof.
  apply catalog_Forall.
  intros base lib files m e _ _ _ _ _ _ Hm.
  destruct (processManifest_accepted _ _ _ _ _ Hm)
    as [data [info [id [dir [_ [_ [_ [Hor [Hid [Hgame [Hinst [_ ->]]]]]]]]]]]].
  simpl. repeat split; try assumption.
  intros s -> Hin.
  destruct (isActualGame_passed _ _ Hgame)
    as [name [_ [_ [_ [_ [_ [_ [Hexcl _]]]]]]]].
  unfold hasAppId in Hexcl.
  assert (Hex : existsb (String.eqb s) nonGameAppIds = true).
  { apply existsb_exists. exists s. split; [exact Hin | apply String.eqb_refl]. }
  congruence.
Qed.

Lemma catalog_entries_passed_both_filters_witness :
  exists games, fetchAllGames twoTitles = Some games
                /\ Forall (fun g => fullyInstalled (raw g) = true) games.
Proof.
  destruct (fetchAllGames twoTitles) as [games |] eqn:Hrun.
  - exists games. split; [reflexivity |].
    eapply Forall_impl;
      [| exact (catalog_entries_passed_both_filters twoTitles games Hrun)].
    intros g H. apply H.
  - vm_compute in Hrun. discriminate Hrun.
Defined.

(** X5.  Every entry of the catalog comes from one manifest file: a file
    of an existing library of a found installation root, whose name starts
    with [appmanifest_] and ends with [.acf] and whose [AppState] section is
    the entry's raw record; the install path is the library's [common]
    directory joined with the manifest's install directory. *)
Theorem catalog_entries_come_from_manifest_files (E : Env) (games : list entry) :
  fetchAllGames E = Some games ->
  Forall (fun g => exists base lib files manifest data dir,
              In base (getSteamPaths E) /\ existsSync E base = true
              /\ In lib (getSteamLibraries E base) /\ existsSync E lib = true
              /\ readdirSync E lib = Some files /\ In manifest files
              /\ startsWith manifest "appmanifest_" = true
              /\ endsWith manifest ".acf" = true
              /\ parseVDF E (path_join E [lib; manifest]) = Some data
              /\ field data "AppState" = Some (raw g)
              /\ strOr (field (raw g) "installdir") "" = Some dir
              /\ installDir g = path_join E [lib; "common"; dir])
         games.
Proof.
  apply catalog_Forall.
  intros base lib files m e Hbase Hlib Hex Hls Hin Hname Hm.
  destruct (processManifest_accepted _ _ _ _ _ Hm)
    as [data [info [id [dir [Hparse [Hstate [_ [_ [_ [_ [_ [Hdir ->]]]]]]]]]]]].
  exists base, lib, files, m, data, dir. simpl.
  unfold isManifestName in Hname. apply andb_true_iff in Hname.
  destruct Hname as [Hpre Hsuf].
  pose proof Hbase as Hbase'. unfold getSteamPaths in Hbase'.
  apply filter_In in Hbase'. destruct Hbase' as [_ Hbex].
  repeat split; assumption.
Qed.

Lemma catalog_entries_come_from_manifest_files_witness :
  exists games, fetchAllGames twoTitles = Some games
                /\ Forall (fun g => exists lib dir,
                               installDir g = path_join twoTitles [lib; "common"; dir])
                          games.
Proof.
  destruct (fetchAllGames twoTitles) as [games |] eqn:Hrun.
  - exists games. split; [reflexivity |].
    eapply Forall_impl;
      [| exact (catalog_entries_come_from_manifest_files twoTitles games Hrun)].
    intros g [base [lib [files [m [data [dir H]]]]]].
    exists lib, dir. apply H.
  - vm_compute in Hrun. discriminate Hrun.
Defined.

(** X6.  An entry of the catalog has a playtime that is a number, not NaN,
    and is not negative, whenever its identifier is no member name of
    [Object.prototype] and its manifest has no total-playtime field, an
    empty one, or one that parses to a number that is not negative. *)
Theorem catalog_playtime_nonnegative (E : Env) (games : list entry) :
  fetchAllGames E = Some games ->
  Forall (fun g =>
            inherited (toString (appid g)) = false ->
            (truthy (field (raw g) "PlaytimeForever") = false \/
             exists t p, field (raw g) "PlaytimeForever" = Some t /\
                         parseInt (toString t) = Num p /\ 0 <= p) ->
            playtime g <> NaN /\ num_ltb (playtime g) (Num 0) = false)
         games.
Proof.
  apply catalog_Forall.
  intros base lib files m e _ _ _ _ _ _ Hm.
  destruct (processManifest_accepted _ _ _ _ _ Hm)
    as [data [info [id [dir [_ [_ [_ [_ [_ [_ [_ [_ ->]]]]]]]]]]]].
  simpl. intros Hid Hfield.
  destruct (mergedPlaytime_nonnegative E
              (readAllUsers E base (getSteamUsers E base)) info id
              (readAllUsers_positive _ _ _) Hid Hfield) as [z [-> Hz]].
  split; [discriminate |]. simpl. apply Z.ltb_ge. exact Hz.
Qed.

(** On the installation with two users, where the first has 30 minutes and
    the manifest declares a total of 10. *)
Lemma catalog_playtime_nonnegative_witness :
  exists games, fetchAllGames twoUsers = Some games
                /\ games <> []
                /\ Forall (fun g => playtime g <> NaN
                                    /\ num_ltb (playtime g) (Num 0) = false)
                          games.
Proof.
  destruct (fetchAllGames twoUsers) as [games |] eqn:Hrun.
  - exists games. split; [reflexivity |].
    pose proof (catalog_playtime_nonnegative twoUsers games Hrun) as H.
    vm_compute in Hrun. injection Hrun as <-.
    split; [discriminate |].
    inversion H as [| g1 r1 H1 Hr1]; subst.
    constructor; [| constructor].
    apply H1; [reflexivity |].
    right. exists (Str "10"), 10.
    split; [reflexivity | split; [vm_compute; reflexivity | lia]].
  - vm_compute in Hrun. discriminate Hrun.
Defined.

(** ** Maps of play times: enumeration order, insertion and lookup *)

Section KeyOrder.

Lemma insertIndex_perm (x : Z * string) (l : list (Z * string)) :
  Permutation (x :: l) (insertIndex x l).
Proof.
  induction l as [| y r IH]; simpl; [reflexivity |].
  destruct (fst x <=? fst y); [reflexivity |].
  rewrite perm_swap. now constructor.
Qed.

Lemma indexKeys_perm (ks : list string) :
  Permutation (filter isIndexKey ks) (map snd (indexKeys ks)).
Proof.
  induction ks as [| k r IH]; simpl; [reflexivity |].
  unfold isIndexKey at 1.
  destruct (arrayIndex k) as [i |]; [| exact IH].
  rewrite <- (insertIndex_perm (i, k) (indexKeys r)). simpl.
  now constructor.
Qed.

Lemma filter_partition_perm {A : Type} (f : A -> bool) (l : list A) :
  Permutation l (filter f l ++ filter (fun x => negb (f x)) l).
Proof.
  induction l as [| x r IH]; simpl; [reflexivity |].
  destruct (f x); simpl.
  - now constructor.
  - rewrite <- Permutation_middle. now constructor.
Qed.

(** The enumeration order rearranges the names, it neither drops nor
    repeats one. *)
Lemma keyOrder_perm (ks : list string) : Permutation ks (keyOrder ks).
Proof.
  unfold keyOrder. rewrite <- indexKeys_perm.
  apply filter_partition_perm.
Qed.

Lemma assoc_NoDup {A : Type} (l : list (string * A)) (k : string) (v : A) :
  NoDup (map fst l) -> In (k, v) l -> assoc k l = Some v.
Proof.
  induction l as [| [k' v'] r IH]; simpl; intros Hnd Hin; [contradiction |].
  destruct Hin as [Heq | Hin].
  - injection Heq as -> ->. now rewrite String.eqb_refl.
  - inversion Hnd as [| ? ? Hnotin Hnd']; subst.
    destruct (String.eqb_spec k k') as [-> | _].
    + elim Hnotin. apply in_map_iff. now exists (k', v).
    + now apply IH.
Qed.


Lemma flat_map_assoc {A : Type} (props l : list (string * A)) :
  (forall k v, In (k, v) l -> assoc k props = Some v) ->
  flat_map (fun k => match assoc k props with
                     | Some v => [(k, v)]
                     | None => []
                     end) (map fst l) = l.
Proof.
  induction l as [| [k v] r IH]; simpl; intros H; [reflexivity |].
  rewrite (H k v (or_introl eq_refl)). simpl. f_equal.
  apply IH. intros k' v' Hin. apply H. now right.
Qed.

(** Of an object with distinct property names, [for-in] visits every
    property once. *)
Lemma ownEntries_perm {A : Type} (props : list (string * A)) :
  NoDup (map fst props) -> Permutation props (ownEntries props).
Proof.
  intros Hnd. unfold ownEntries, ownKeys.
  rewrite <- (Permutation_flat_map _ (keyOrder_perm (map fst props))).
  rewrite flat_map_assoc; [reflexivity |].
  intros k v. now apply assoc_NoDup.
Qed.

Lemma update_keys_In {A : Type} (k k' : string) (v : A) (l : list (string * A)) :
  In k' (map fst (update k v l)) <-> k' = k \/ In k' (map fst l).
Proof.
  induction l as [| [k0 v0] r IH]; simpl.
  - intuition.
  - destruct (String.eqb_spec k k0) as [-> | Hne]; simpl.
    + intuition.
    + rewrite IH. intuition.
Qed.

Lemma update_keys_NoDup {A : Type} (k : string) (v : A) (l : list (string * A)) :
  NoDup (map fst l) -> NoDup (map fst (update k v l)).
Proof.
  induction l as [| [k0 v0] r IH]; simpl; intros Hnd.
  - constructor; [intros [] | constructor].
  - inversion Hnd as [| ? ? Hnotin Hnd']; subst.
    destruct (String.eqb_spec k k0) as [-> | Hne]; simpl.
    + now constructor.
    + constructor; [| now apply IH].
      rewrite update_keys_In. intros [-> | Hin]; [now elim Hne | contradiction].
Qed.

Lemma setProp_keys_NoDup {A : Type} (k : string) (v : A) (l : list (string * A)) :
  NoDup (map fst l) -> NoDup (map fst (setProp k v l)).
Proof.
  intros H. unfold setProp.
  destruct (String.eqb k "__proto__"); [exact H | now apply update_keys_NoDup].
Qed.



End KeyOrder.

Section PlaytimeMaps.






Lemma collectPlaytimes_keys (apps : tree) :
  NoDup (map fst (collectPlaytimes apps)).
Proof.
  unfold collectPlaytimes.
  assert (Hgen : forall l acc, NoDup (map fst acc) ->
    NoDup (map fst
      (fold_left (fun (acc : playtimes) (kv : string * tree) =>
                    match playtimeOf (snd kv) with
                    | Some p => setProp (fst kv) p acc
                    | None => acc
                    end) l acc))).
  { induction l as [| kv r IH]; simpl; intros acc Hacc; [exact Hacc |].
    apply IH. destruct (playtimeOf (snd kv)); [| exact Hacc].
    now apply setProp_keys_NoDup. }
  apply Hgen. constructor.
Qed.

Lemma readUserPlaytime_keys (E : Env) (userPath : string) :
  NoDup (map fst (readUserPlaytime E userPath)).
Proof.
  unfold readUserPlaytime.
  destruct (negb (existsSync E _)); [constructor |].
  destruct (negb (truthy _)); [constructor |].
  destruct (findApps _); [apply collectPlaytimes_keys | constructor].
Qed.

Lemma readAllUsers_keys (E : Env) (base : string) (users : list string) :
  NoDup (map fst (readAllUsers E base users)).
Proof.
  unfold readAllUsers.
  assert (Hgen : forall l (acc : list (string * playtimes)),
    NoDup (map fst acc) ->
    NoDup (map fst
      (fold_left (fun userPlaytimes user =>
                    setProp user
                      (readUserPlaytime E (path_join E [base; "userdata"; user]))
                      userPlaytimes) l acc))).
  { induction l as [| u r IH]; simpl; intros acc Hacc; [exact Hacc |].
    apply IH. now apply setProp_keys_NoDup. }
  apply Hgen. constructor.
Qed.

(** The fold of [Math.max] over users that contribute non-negative
    integers. *)
Lemma fold_max_bounds (id : string) (l : list (string * playtimes)) :
  (forall um, In um l -> exists t, userTime (snd um) id = Num t /\ 0 <= t) ->
  forall z0, 0 <= z0 ->
  exists z,
    fold_left (fun playtime um => Math_max playtime (userTime (snd um) id))
              l (Num z0) = Num z
    /\ z0 <= z
    /\ (forall um t, In um l -> userTime (snd um) id = Num t -> t <= z)
    /\ (z = z0 \/ exists um, In um l /\ userTime (snd um) id = Num z).
Proof.
  induction l as [| um r IH]; simpl; intros Hl z0 Hz0.
  - exists z0. repeat split; [lia | intros um t [] | now left].
  - destruct (Hl um (or_introl eq_refl)) as [t [Ht Ht0]].
    rewrite Ht. simpl.
    destruct (IH (fun um' Hin => Hl um' (or_intror Hin)) (Z.max z0 t) ltac:(lia))
      as [z [Hz [Hle [Hub Hatt]]]].
    exists z. repeat split; [exact Hz | lia | |].
    + intros um' t' [<- | Hin] Ht'.
      * rewrite Ht in Ht'. injection Ht' as <-. lia.
      * now apply (Hub um').
    + destruct Hatt as [-> | [um' [Hin Hum']]].
      * destruct (Z.max_spec z0 t) as [[_ ->] | [_ ->]].
        -- right. exists um. split; [now left | exact Ht].
        -- now left.
      * right. exists um'. split; [now right | exact Hum'].
Qed.

End PlaytimeMaps.

(** X7.  The loop over the users computes the maximum.  For users with
    distinct names, an identifier that is no member name of
    [Object.prototype], and maps in which the minutes recorded for the
    identifier are positive integers, the value of the loop is an integer
    that no user's minutes exceed and that, unless it is 0, are the minutes
    of some user; it is 0 only when no user has recorded any. *)
Theorem user_maximum_is_the_maximum
  (ups : list (string * playtimes)) (id : string) :
  NoDup (map fst ups) ->
  inherited id = false ->
  (forall u m n, In (u, m) ups -> lookupPlaytime m id = Minutes n ->
                 exists t, n = Num t /\ 0 < t) ->
  exists z,
    maxUserPlaytime ups id = Num z /\ 0 <= z
    /\ (forall u m t, In (u, m) ups ->
                      lookupPlaytime m id = Minutes (Num t) -> t <= z)
    /\ (z = 0 \/ exists u m, In (u, m) ups
                             /\ lookupPlaytime m id = Minutes (Num z))
    /\ (z = 0 -> forall u m, In (u, m) ups -> lookupPlaytime m id = Absent).
Proof.
  intros Hkeys Hid Hval.
  pose proof (ownEntries_perm ups Hkeys) as Hperm.
  assert (Hnot : forall m, lookupPlaytime m id <> Inherited).
  { intros m. unfold lookupPlaytime. rewrite Hid.
    now destruct (assoc id m). }
  assert (Hminutes : forall u m t, In (u, m) ups ->
            lookupPlaytime m id = Minutes (Num t) ->
            userTime m id = Num t /\ 0 < t).
  { intros u m t Hin Hl. destruct (Hval u m _ Hin Hl) as [t' [[= <-] Ht]].
    split; [| exact Ht]. unfold userTime. rewrite Hl.
    destruct (Z.eqb_spec t 0); [lia | reflexivity]. }
  assert (Hown : forall um, In um (ownEntries ups) ->
            exists t, userTime (snd um) id = Num t /\ 0 <= t).
  { intros [u m] Hin. apply ownEntries_incl in Hin. simpl.
    destruct (lookupPlaytime m id) as [| | n] eqn:Hl.
    - exists 0. unfold userTime. rewrite Hl. split; [reflexivity | lia].
    - now elim (Hnot m).
    - destruct (Hval u m n Hin Hl) as [t [-> Ht]].
      exists t. split; [| lia]. now apply (Hminutes u m t Hin). }
  destruct (fold_max_bounds id (ownEntries ups) Hown 0 ltac:(lia))
    as [z [Hz [Hz0 [Hub Hatt]]]].
  assert (Hbound : forall u m t, In (u, m) ups ->
            lookupPlaytime m id = Minutes (Num t) -> t <= z).
  { intros u m t Hin Hl. apply (Hub (u, m) t).
    - apply (Permutation_in _ Hperm Hin).
    - simpl. now apply (Hminutes u m t Hin). }
  exists z. split; [exact Hz |]. split; [exact Hz0 |].
  split; [exact Hbound |]. split.
  - destruct Hatt as [-> | [[u m] [Hin Hum]]]; [now left |].
    destruct (Z.eq_dec z 0) as [-> | Hnz]; [now left |].
    right. exists u, m. split.
    + apply (Permutation_in _ (Permutation_sym Hperm) Hin).
    + simpl in Hum. unfold userTime in Hum.
      destruct (lookupPlaytime m id) as [| | [| t]]; try discriminate.
      * injection Hum as <-. now elim Hnz.
      * injection Hum as <-. now elim Hnz.
      * destruct (Z.eqb_spec t 0).
        -- injection Hum as <-. now elim Hnz.
        -- injection Hum as <-. reflexivity.
  - intros -> u m Hin.
    destruct (lookupPlaytime m id) as [| | n] eqn:Hl.
    + reflexivity.
    + now elim (Hnot m).
    + destruct (Hval u m n Hin Hl) as [t [-> Ht]].
      pose proof (Hbound u m t Hin Hl). lia.
Qed.

Lemma user_maximum_is_the_maximum_witness :
  exists z,
    maxUserPlaytime threeUsers "440" = Num z /\ 0 <= z
    /\ (forall u m t, In (u, m) threeUsers ->
                      lookupPlaytime m "440" = Minutes (Num t) -> t <= z)
    /\ (z = 0 \/ exists u m, In (u, m) threeUsers
                             /\ lookupPlaytime m "440" = Minutes (Num z))
    /\ (z = 0 -> forall u m, In (u, m) threeUsers ->
                             lookupPlaytime m "440" = Absent).
Proof.
  apply (user_maximum_is_the_maximum threeUsers "440").
  - repeat constructor; simpl; intuition discriminate.
  - reflexivity.
  - intros u m n [[= <- <-] | [[= <- <-] | [[= <- <-] | []]]] Hl;
      vm_compute in Hl; try discriminate Hl;
      injection Hl as <-; eexists; (split; [reflexivity | lia]).
Defined.

(** Three users with 30, 45 and no minutes: the loop gives 45. *)
Example maximum_of_three_users :
  maxUserPlaytime threeUsers "440" = Num 45.
Proof. vm_compute. reflexivity. Qed.

(** The whole build on this installation: the 30 minutes of the first user
    win over the manifest's total of 10. *)
Example catalog_of_two_users :
  option_map (map playtime) (fetchAllGames twoUsers) = Some [Num 30].
Proof. vm_compute. reflexivity. Qed.



(** X9.  The map that [readUserPlaytime] returns has distinct names and
    holds only numbers greater than 0 (none is NaN, zero or negative),
    whatever the file holds; so a user contributes 0 to the merge exactly
    when the lookup finds nothing. *)
Theorem playtime_map_is_well_formed (E : Env) (userPath id : string) :
  NoDup (map fst (readUserPlaytime E userPath))
  /\ (forall k n, In (k, n) (readUserPlaytime E userPath) ->
                  num_gtb n (Num 0) = true)
  /\ (userTime (readUserPlaytime E userPath) id = Num 0 <->
      lookupPlaytime (readUserPlaytime E userPath) id = Absent).
Proof.
  pose proof (readUserPlaytime_positive E userPath) as Hpos.
  unfold positiveMinutes in Hpos. rewrite Forall_forall in Hpos.
  split; [apply readUserPlaytime_keys |]. split.
  - intros k n Hin.
    destruct (Hpos (k, n) Hin) as [z [Hz Hz0]]. simpl in Hz. subst n.
    simpl. now apply Z.ltb_lt.
  - unfold userTime, lookupPlaytime.
    destruct (assoc id (readUserPlaytime E userPath)) as [n |] eqn:Hn.
    + apply assoc_In in Hn.
      destruct (Hpos _ Hn) as [z [Hz Hz0]]. simpl in Hz. subst n.
      destruct (Z.eqb_spec z 0); [lia |].
      split; [intros [= ->]; lia | discriminate].
    + destruct (inherited id); split; try discriminate; reflexivity.
Qed.

(** ** Failures *)

Section Failures.

Lemma filterM_None {A : Type} (p : A -> option bool) (l : list A) (x : A) :
  In x l -> p x = None -> filterM p l = None.
Proof.
  induction l as [| y r IH]; simpl; intros Hin Hx; [contradiction |].
  destruct Hin as [-> | Hin].
  - now rewrite Hx.
  - destruct (p y); [| reflexivity].
    now rewrite (IH Hin Hx).
Qed.

Lemma pushAll_None {A B : Type} (body : A -> option (list B)) (l : list A)
  (x : A) :
  In x l -> body x = None -> pushAll body l = None.
Proof.
  induction l as [| y r IH]; simpl; intros Hin Hx; [contradiction |].
  destruct Hin as [-> | Hin].
  - now rewrite Hx.
  - destruct (body y); [| reflexivity].
    now rewrite (IH Hin Hx).
Qed.

Lemma scanBase_None (E : Env) (base lib : string) :
  In lib (getSteamLibraries E base) ->
  scanLibrary E (readAllUsers E base (getSteamUsers E base)) lib = None ->
  scanBase E base = None.
Proof.
  intros Hlib Hscan. unfold scanBase. now apply pushAll_None with (x := lib).
Qed.

Lemma fetchAllGames_None (E : Env) (base : string) :
  In base (getSteamPaths E) -> scanBase E base = None ->
  fetchAllGames E = None.
Proof.
  intros Hbase Hscan. rewrite fetchAllGames_pushAll.
  now apply pushAll_None with (x := base).
Qed.

End Failures.

(** X10.  The user enumerator returns the empty list when the user-profile
    directory is absent, when it cannot be listed, and also when a single
    one of its entries cannot be examined: one such entry hides all
    profiles. *)
Theorem users_empty_when_anything_fails (E : Env) (basePath : string) :
  let userdataPath := path_join E [basePath; "userdata"] in
  (existsSync E userdataPath = false
   \/ readdirSync E userdataPath = None
   \/ exists files f, readdirSync E userdataPath = Some files /\ In f files
                      /\ isDirectory E (path_join E [userdataPath; f]) = None) ->
  getSteamUsers E basePath = [].
Proof.
  intros userdataPath H. unfold getSteamUsers. fold userdataPath.
  destruct H as [-> | [-> | [files [f [-> [Hin Hstat]]]]]]; try reflexivity.
  - now destruct (negb (existsSync E userdataPath)).
  - destruct (negb (existsSync E userdataPath)); [reflexivity |].
    rewrite (filterM_None _ files f Hin); [reflexivity |].
    now rewrite Hstat.
Qed.

Lemma users_empty_when_anything_fails_witness :
  getSteamUsers danglingEntry root = [].
Proof.
  apply (users_empty_when_anything_fails danglingEntry root).
  right. right. exists ["1001"; "ghost"], "ghost".
  split; [vm_compute; reflexivity |].
  split; [right; left; reflexivity |].
  vm_compute. reflexivity.
Defined.

(** X11.  The build has no partial result: when one library of one found
    root exists and cannot be listed, [fetchAllGames] throws, whatever the
    other libraries hold. *)
Theorem unreadable_library_rejects_build (E : Env) (base lib : string) :
  In base (getSteamPaths E) ->
  In lib (getSteamLibraries E base) ->
  existsSync E lib = true ->
  readdirSync E lib = None ->
  fetchAllGames E = None.
Proof.
  intros Hbase Hlib Hex Hls.
  apply (fetchAllGames_None E base Hbase).
  apply (scanBase_None E base lib Hlib).
  unfold scanLibrary. now rewrite Hex, Hls.
Qed.

Lemma unreadable_library_rejects_build_witness :
  fetchAllGames libraryIsFile = None.
Proof.
  apply (unreadable_library_rejects_build libraryIsFile root
           "/home/u/.steam/steam/steamapps").
  - vm_compute. left. reflexivity.
  - vm_compute. left. reflexivity.
  - vm_compute. reflexivity.
  - vm_compute. reflexivity.
Defined.

(** X12.  A manifest that parses, has an [AppState] section and an
    identifier, and whose [name] (or [installdir]) is a nested section
    instead of a string is not skipped: [isActualGame] throws on it and the
    whole build throws, whatever the other manifests hold. *)
Theorem section_valued_name_rejects_build
  (E : Env) (base lib manifest : string) (files : list string)
  (data info id : tree) (fields : list (string * tree)) :
  In base (getSteamPaths E) ->
  In lib (getSteamLibraries E base) ->
  existsSync E lib = true ->
  readdirSync E lib = Some files ->
  In manifest files -> isManifestName manifest = true ->
  parseVDF E (path_join E [lib; manifest]) = Some data ->
  truthy (Some data) = true ->
  field data "AppState" = Some info -> truthy (Some info) = true ->
  orElse (field info "appid") (field info "AppID") = Some id ->
  truthy (Some id) = true ->
  (field info "name" = Some (Obj fields)
   \/ field info "installdir" = Some (Obj fields)) ->
  fetchAllGames E = None.
Proof.
  intros Hbase Hlib Hex Hls Hin Hname Hparse Hdata Hstate Hinfo Hor Hid Hobj.
  apply (fetchAllGames_None E base Hbase).
  apply (scanBase_None E base lib Hlib).
  unfold scanLibrary. rewrite Hex, Hls. simpl negb. cbv iota.
  apply pushAll_None with (x := manifest).
  - apply filter_In. now split.
  - unfold processManifest.
    rewrite Hparse, Hdata. simpl negb. cbv iota.
    rewrite (orDefault_truthy _ _ Hdata), Hstate, Hinfo. simpl negb. cbv iota.
    rewrite (orDefault_truthy _ _ Hinfo), Hor, Hid. simpl negb. cbv iota.
    rewrite (orDefault_truthy _ _ Hid).
    assert (Hthrow : isActualGame info id = None).
    { unfold isActualGame. destruct Hobj as [-> | ->].
      - reflexivity.
      - now destruct (strOr (field info "name") ""). }
    now rewrite Hthrow.
Qed.

Lemma section_valued_name_rejects_build_witness :
  fetchAllGames oneBadManifest = None.
Proof.
  apply (section_valued_name_rejects_build oneBadManifest root
           "/home/u/.steam/steam/steamapps" "appmanifest_620.acf"
           ["appmanifest_440.acf"; "appmanifest_620.acf"]
           sectionAsName
           (Obj [("appid", Str "620"); ("name", Obj [("english", Str "Portal 2")]);
                 ("StateFlags", Str "4")])
           (Str "620") [("english", Str "Portal 2")]);
    try (vm_compute; reflexivity).
  - vm_compute. left. reflexivity.
  - vm_compute. left. reflexivity.
  - right. left. reflexivity.
  - left. reflexivity.
Defined.

(** ** Separators of declared paths *)

Section Backslashes.

Lemma includes_double_cons (c : ascii) (s : string) :
  includes (String c s) "\\"
  = (Ascii.eqb c backslash && headIsBackslash s) || includes s "\\".
Proof.
  change (includes (String c s) "\\")
    with (String.prefix "\\" (String c s) || includes s "\\").
  f_equal.
  change (String.prefix "\\" (String c s))
    with (if ascii_dec "\" c then String.prefix "\" s else false).
  destruct (ascii_dec "\" c) as [<- | Hne].
  - change (Ascii.eqb "\" backslash) with true. rewrite andb_true_l.
    destruct s as [| d t]; [reflexivity |].
    change (String.prefix "\" (String d t))
      with (if ascii_dec "\" d then String.prefix "" t else false).
    unfold headIsBackslash.
    destruct (ascii_dec "\" d) as [<- | Hne].
    + now destruct t.
    + destruct (Ascii.eqb_spec d backslash) as [-> | _];
        [now elim Hne | reflexivity].
  - destruct (Ascii.eqb_spec c backslash) as [-> | _];
      [now elim Hne | reflexivity].
Qed.

Lemma replace_cons2 (c d : ascii) (t : string) :
  replaceDoubleBackslash (String c (String d t))
  = if (Ascii.eqb c backslash && Ascii.eqb d backslash)%bool
    then String slash (replaceDoubleBackslash t)
    else String c (replaceDoubleBackslash (String d t)).
Proof. reflexivity. Qed.

Lemma head_after_replace (d : ascii) (t : string) :
  Ascii.eqb d backslash = false ->
  headIsBackslash (replaceDoubleBackslash (String d t)) = false.
Proof.
  intros Hd. destruct t as [| e t'].
  - exact Hd.
  - rewrite replace_cons2, Hd. exact Hd.
Qed.

Lemma replace_leaves_no_double_aux (s : string) :
  includes (replaceDoubleBackslash s) "\\" = false
  /\ forall c, includes (replaceDoubleBackslash (String c s)) "\\" = false.
Proof.
  induction s as [| d t [IH1 IH2]].
  - split; [reflexivity |].
    intros c. change (replaceDoubleBackslash (String c "")) with (String c "").
    rewrite includes_double_cons. now rewrite andb_false_r.
  - split; [apply IH2 |].
    intros c. rewrite replace_cons2.
    destruct (Ascii.eqb c backslash) eqn:Hc;
      destruct (Ascii.eqb d backslash) eqn:Hd; cbv [andb];
      rewrite includes_double_cons.
    + change (Ascii.eqb slash backslash) with false.
      rewrite andb_false_l, orb_false_l. exact IH1.
    + rewrite Hc, (head_after_replace d t Hd).
      rewrite andb_false_r, orb_false_l. apply IH2.
    + rewrite Hc, andb_false_l, orb_false_l. apply IH2.
    + rewrite Hc, andb_false_l, orb_false_l. apply IH2.
Qed.

Lemma replace_keeps_clean_aux (s : string) :
  (includes s "\\" = false -> replaceDoubleBackslash s = s)
  /\ forall c, includes (String c s) "\\" = false ->
               replaceDoubleBackslash (String c s) = String c s.
Proof.
  induction s as [| d t [IH1 IH2]].
  - split; reflexivity.
  - split; [apply IH2 |].
    intros c. rewrite includes_double_cons.
    change (headIsBackslash (String d t)) with (Ascii.eqb d backslash).
    intros H. apply orb_false_iff in H. destruct H as [Hcd Hrest].
    rewrite replace_cons2, Hcd.
    now rewrite (IH2 d Hrest).
Qed.

End Backslashes.

(** X14.  The replacement of doubled backslashes leaves no doubled
    backslash behind, returns a string without one unchanged, and so does
    nothing when applied a second time; single backslashes stay. *)
Theorem replaceDoubleBackslash_normal_form (s : string) :
  includes (replaceDoubleBackslash s) "\\" = false
  /\ (includes s "\\" = false -> replaceDoubleBackslash s = s)
  /\ replaceDoubleBackslash (replaceDoubleBackslash s) = replaceDoubleBackslash s.
Proof.
  split; [apply replace_leaves_no_double_aux |].
  split; [apply replace_keeps_clean_aux |].
  apply replace_keeps_clean_aux. apply replace_leaves_no_double_aux.
Qed.

Example replace_in_windows_path :
  replaceDoubleBackslash "D:\\Games\\Steam Library" = "D:/Games/Steam Library"
  /\ replaceDoubleBackslash "D:\Games" = "D:\Games".
Proof. split; reflexivity. Qed.

(** ** Roots and libraries *)

(** X15.  The list of libraries starts with the root's own [steamapps]
    directory; it is this directory alone when the descriptor is absent or
    does not parse; every further library is the [steamapps] directory of a
    path that exists and holds no doubled backslash. *)
Theorem libraries_start_with_primary (E : Env) (basePath : string) :
  let primary := path_join E [basePath; "steamapps"] in
  let vdfPath := path_join E [basePath; "steamapps"; "libraryfolders.vdf"] in
  hd_error (getSteamLibraries E basePath) = Some primary
  /\ (existsSync E vdfPath = false \/ truthy (parseVDF E vdfPath) = false ->
      getSteamLibraries E basePath = [primary])
  /\ (forall lib, In lib (getSteamLibraries E basePath) ->
        lib = primary
        \/ exists p, existsSync E p = true
                     /\ includes p "\\" = false
                     /\ lib = path_join E [p; "steamapps"]).
Proof.
  intros primary vdfPath. unfold getSteamLibraries.
  fold primary. fold vdfPath.
  destruct (existsSync E vdfPath) eqn:Hex; simpl negb; cbv iota.
  - destruct (truthy (parseVDF E vdfPath)) eqn:Htr; simpl negb; cbv iota.
    + split; [reflexivity |]. split.
      * intros [H | H]; discriminate H.
      * intros lib Hin.
        match type of Hin with
        | In _ (dedupe ?l) => apply (proj1 (In_dedupe lib l)) in Hin
        end.
        apply in_app_or in Hin.
        destruct Hin as [[<- | []] | Hin]; [now left |]. right.
        apply in_flat_map in Hin. destruct Hin as [[key v] [_ Hdecl]].
        unfold declaredLibrary in Hdecl.
        destruct (negb (isNaN key)); [| contradiction].
        destruct (orDefault (field v "path") v) as [libPath | fields];
          [| contradiction].
        destruct (existsSync E (replaceDoubleBackslash libPath)) eqn:Hp;
          [| contradiction].
        destruct Hdecl as [<- | []].
        exists (replaceDoubleBackslash libPath).
        repeat split; [exact Hp |].
        apply replace_leaves_no_double_aux.
    + split; [reflexivity |]. split; [reflexivity |].
      intros lib [<- | []]. now left.
  - split; [reflexivity |]. split; [reflexivity |].
    intros lib [<- | []]. now left.
Qed.

(** The installation locator returns only paths that exist, at most
    two of them, one at most on macOS, and none on an operating system
    other than Windows, macOS and Linux. *)
Lemma locator_returns_existing_candidates (E : Env) :
  (forall p, In p (getSteamPaths E) -> existsSync E p = true)
  /\ (List.length (getSteamPaths E) <= 2)%nat
  /\ (platform E = "darwin" -> (List.length (getSteamPaths E) <= 1)%nat)
  /\ (platform E <> "win32" -> platform E <> "darwin" ->
      platform E <> "linux" -> getSteamPaths E = []).
Proof.
  unfold getSteamPaths. repeat split.
  - intros p Hin. apply filter_In in Hin. apply Hin.
  - destruct (String.eqb (platform E) "win32");
      [| destruct (String.eqb (platform E) "darwin");
         [| destruct (String.eqb (platform E) "linux")]];
      simpl; repeat (destruct (existsSync E _)); simpl; lia.
  - intros ->. simpl. destruct (existsSync E _); simpl; lia.
  - intros Hw Hd Hl.
    destruct (String.eqb_spec (platform E) "win32"); [contradiction |].
    destruct (String.eqb_spec (platform E) "darwin"); [contradiction |].
    destruct (String.eqb_spec (platform E) "linux"); [contradiction |].
    reflexivity.
Qed.

(** ** Thumbnails and the network *)

(** X16.  Which titles are listed does not depend on the network: under any
    two networks the build throws in both runs or in none, and the two
    catalogs have the same entries in the same order with the same
    identifier, title, install path and raw record. *)
Theorem catalog_independent_of_network
  (E : Env) (net1 net2 : string -> Response) :
  match fetchAllGames (withNet E net1), fetchAllGames (withNet E net2) with
  | Some games1, Some games2 =>
      Forall2 (fun g1 g2 => appid g2 = appid g1 /\ title g2 = title g1
                            /\ installDir g2 = installDir g1
                            /\ raw g2 = raw g1)
              games1 games2
  | None, None => True
  | _, _ => False
  end.
Proof.
  rewrite (fetchAllGames_withNet E net1), (fetchAllGames_withNet E net2).
  destruct (fetchAllGames E) as [games |]; simpl; [| exact I].
  induction games as [| g r IH]; simpl; constructor; [| exact IH].
  repeat split.
Qed.

(** X17.  When the response holds, under the title's identifier, a truthy
    record with a truthy [success] flag and a [data] with a [header_image],
    [fetchThumbnail] returns that image; and a thumbnail other than [null]
    always is the [header_image] of such a record. *)
Theorem thumbnail_comes_from_success_record (E : Env) (id : tree) :
  (forall body e ok d img,
      axiosGet E (thumbnailUrl id) = Resolved body ->
      read (J body) (toString id) = Some e -> truthyJ e = true ->
      read e "success" = Some ok -> truthyJ ok = true ->
      read e "data" = Some d -> read d "header_image" = Some img ->
      fetchThumbnail E id = img)
  /\ (fetchThumbnail E id = J JNull
      \/ exists body e ok d,
           axiosGet E (thumbnailUrl id) = Resolved body
           /\ read (J body) (toString id) = Some e /\ truthyJ e = true
           /\ read e "success" = Some ok /\ truthyJ ok = true
           /\ read e "data" = Some d
           /\ read d "header_image" = Some (fetchThumbnail E id)).
Proof.
  split.
  - intros body e ok d img Hres He Hte Hok Htok Hd Himg.
    unfold fetchThumbnail, thumbnailOf.
    now rewrite Hres, He, Hte, Hok, Htok, Hd, Himg.
  - unfold fetchThumbnail, thumbnailOf.
    destruct (axiosGet E (thumbnailUrl id)) as [| body] eqn:Hres; [now left |].
    destruct (read (J body) (toString id)) as [e |] eqn:He; [| now left].
    destruct (truthyJ e) eqn:Hte; [| now left].
    destruct (read e "success") as [ok |] eqn:Hok; [| now left].
    destruct (truthyJ ok) eqn:Htok; [| now left].
    destruct (read e "data") as [d |] eqn:Hd; [| now left].
    destruct (read d "header_image") as [img |] eqn:Himg; [| now left].
    right. exists body, e, ok, d. repeat split; assumption.
Qed.

(** The store's answer for title 440 gives its cover. *)
Lemma thumbnail_comes_from_success_record_witness :
  fetchThumbnail twoTitles (Str "440") = J (JStr "440.jpg").
Proof.
  refine (proj1 (thumbnail_comes_from_success_record twoTitles (Str "440"))
                (cover "440" "440.jpg")
                (J (JObj [("success", JBool true);
                          ("data", JObj [("header_image", JStr "440.jpg")])]))
                (J (JBool true))
                (J (JObj [("header_image", JStr "440.jpg")]))
                (J (JStr "440.jpg")) _ _ _ _ _ _ _);
    reflexivity.
Defined.

(** ** Names of manifest files *)

Section ManifestNames.

Lemma prefix_iff (p s : string) :
  String.prefix p s = true <-> exists r, s = p ++ r.
Proof.
  revert s. induction p as [| c p IH]; intros s.
  - split; [intros _; now exists s | intros _; now destruct s].
  - destruct s as [| d s].
    + split; [discriminate | intros [r Hr]; discriminate Hr].
    + change (String.prefix (String c p) (String d s))
        with (if ascii_dec c d then String.prefix p s else false).
      destruct (ascii_dec c d) as [<- | Hne].
      * rewrite IH. split; intros [r Hr]; exists r.
        -- simpl. now rewrite Hr.
        -- simpl in Hr. now injection Hr.
      * split; [discriminate |].
        intros [r Hr]. simpl in Hr. injection Hr as Hc _. now elim Hne.
Qed.

Lemma endsWith_nil (p : string) : endsWith "" p = (String.eqb "" p || false)%bool.
Proof. reflexivity. Qed.

Lemma endsWith_cons (c : ascii) (r p : string) :
  endsWith (String c r) p = (String.eqb (String c r) p || endsWith r p)%bool.
Proof. reflexivity. Qed.

Lemma endsWith_refl (p : string) : endsWith p p = true.
Proof.
  destruct p; [reflexivity |].
  now rewrite endsWith_cons, String.eqb_refl.
Qed.

Lemma endsWith_iff (s p : string) :
  endsWith s p = true <-> exists m, s = m ++ p.
Proof.
  split.
  - induction s as [| c r IH]; intros H.
    + rewrite endsWith_nil in H.
      apply orb_true_iff in H. destruct H as [H | H]; [| discriminate].
      apply String.eqb_eq in H. subst p. now exists "".
    + rewrite endsWith_cons in H.
      apply orb_true_iff in H. destruct H as [H | H].
      * apply String.eqb_eq in H. subst p. now exists "".
      * destruct (IH H) as [m ->]. now exists (String c m).
  - intros [m ->]. induction m as [| c m IH].
    + apply endsWith_refl.
    + change (String c m ++ p) with (String c (m ++ p)).
      rewrite endsWith_cons, IH. apply orb_true_r.
Qed.

End ManifestNames.

(** X18.  A file is taken for a manifest exactly when its name is
    [appmanifest_], anything, [.acf]: the two tests cannot be met by
    overlapping pieces, so the name has 16 characters at least. *)
Theorem manifest_names_decompose (f : string) :
  isManifestName f = true <->
  exists mid, f = "appmanifest_" ++ mid ++ ".acf".
Proof.
  unfold isManifestName, startsWith. rewrite andb_true_iff. split.
  - intros [Hpre Hsuf]. apply prefix_iff in Hpre. destruct Hpre as [r ->].
    cbn in Hsuf. apply endsWith_iff in Hsuf. destruct Hsuf as [mid ->].
    now exists mid.
  - intros [mid ->]. split.
    + apply prefix_iff. now exists (mid ++ ".acf").
    + cbn. apply endsWith_iff. now exists mid.
Qed.

(** X13.  Every library that the descriptor declares is resolved: for a
    property of the [LibraryFolders] (or [libraryfolders]) section whose
    name converts to a number and whose value is a path, bare or under
    [path], that exists once its doubled backslashes are replaced, the
    [steamapps] directory of that path is among the libraries. *)
Theorem declared_libraries_are_resolved
  (E : Env) (basePath : string) (parsed : tree)
  (folders : list (string * tree)) (key libPath : string) (v : tree) :
  let vdfPath := path_join E [basePath; "steamapps"; "libraryfolders.vdf"] in
  existsSync E vdfPath = true ->
  parseVDF E vdfPath = Some parsed -> truthy (Some parsed) = true ->
  orElse (field parsed "LibraryFolders") (field parsed "libraryfolders")
  = Some (Obj folders) ->
  NoDup (map fst folders) ->
  In (key, v) folders -> isNaN key = false ->
  (v = Str libPath \/ (field v "path" = Some (Str libPath) /\ libPath <> "")) ->
  existsSync E (replaceDoubleBackslash libPath) = true ->
  In (path_join E [replaceDoubleBackslash libPath; "steamapps"])
     (getSteamLibraries E basePath).
Proof.
  intros vdfPath Hex Hparse Htruthy Hfolders Hnd Hin Hkey Hv Hpath.
  unfold getSteamLibraries. fold vdfPath.
  rewrite Hex, Hparse, Htruthy. simpl negb. cbv iota.
  rewrite (orDefault_truthy _ _ Htruthy), Hfolders.
  rewrite (orDefault_truthy (Obj folders) (Obj []) eq_refl).
  apply In_dedupe. apply in_or_app. right.
  apply in_flat_map. exists (key, v). split.
  - change (entries (Obj folders)) with (ownEntries folders).
    apply (Permutation_in _ (ownEntries_perm folders Hnd) Hin).
  - unfold declaredLibrary. rewrite Hkey. simpl negb. cbv iota.
    assert (Hlib : orDefault (field v "path") v = Str libPath).
    { destruct Hv as [-> | [Hp Hne]].
      - reflexivity.
      - rewrite Hp. apply orDefault_truthy. simpl.
        destruct libPath; [now elim Hne | reflexivity]. }
    rewrite Hlib, Hpath. now left.
Qed.

Lemma declared_libraries_are_resolved_witness :
  In "/mnt/games/steamapps" (getSteamLibraries declaredTwice root).
Proof.
  apply (declared_libraries_are_resolved declaredTwice root
           (Obj [("LibraryFolders",
                  Obj [("0", Obj [("path", Str root)]);
                       ("1", Str "/mnt/games")])])
           [("0", Obj [("path", Str root)]); ("1", Str "/mnt/games")]
           "1" "/mnt/games" (Str "/mnt/games"));
    try (vm_compute; reflexivity).
  - repeat constructor; simpl; intuition discriminate.
  - right. left. reflexivity.
  - left. reflexivity.
Defined.

(* ================================================================== *)
(** * Properties of the renderer, [script.js] *)
(* ================================================================== *)

Import Renderer.

Section Rendering.

Lemma append_assoc (a b c : string) : (a ++ b) ++ c = a ++ b ++ c.
Proof. induction a as [| x a IH]; simpl; [reflexivity | now rewrite IH]. Qed.

Lemma ends_with_m_is_played (a : string) : a ++ "m" <> "Never played".
Proof.
  intros H.
  assert (Hend : endsWith (a ++ "m") "m" = true)
    by (apply endsWith_iff; now exists a).
  rewrite H in Hend. vm_compute in Hend. discriminate Hend.
Qed.

Lemma ends_with_h_is_played (a : string) : a ++ "h" <> "Never played".
Proof.
  intros H.
  assert (Hend : endsWith (a ++ "h") "h" = true)
    by (apply endsWith_iff; now exists a).
  rewrite H in Hend. vm_compute in Hend. discriminate Hend.
Qed.

End Rendering.

(** X19.  [formatPlaytime] answers [Never played] for 0 and for NaN and
    for nothing else: every other playtime, the sentinel 1 and a negative
    one included, is rendered as a duration. *)
Theorem never_played_iff_zero_or_nan (minutes : num) :
  formatPlaytime minutes = "Never played" <->
  minutes = NaN \/ minutes = Num 0.
Proof.
  split.
  - destruct minutes as [| m]; [now left |].
    unfold formatPlaytime.
    destruct (Z.eqb_spec m 0) as [-> | _]; [now right |].
    cbv zeta.
    destruct (m / 60 =? 0); [intros H; now apply ends_with_m_is_played in H |].
    destruct (m / 60 <? 10).
    + rewrite <- !append_assoc. intros H.
      now apply ends_with_m_is_played in H.
    + intros H. now apply ends_with_h_is_played in H.
  - intros [-> | ->]; reflexivity.
Qed.

(** X20.  The rendering of a playtime within the range of the safe
    integers (below 2^53 in magnitude, where the division and the printing
    of the program are exact), by ranges: below an hour the minutes; from
    one hour up to ten hours the hours and the remaining minutes; from ten
    hours (600 minutes) on the hours alone, the minutes being dropped; a
    negative playtime as negative hours and minutes. *)
Theorem formatPlaytime_by_range (m : Z) :
  - 2 ^ 53 < m < 2 ^ 53 ->
  (0 < m < 60 -> formatPlaytime (Num m) = numberToString m ++ "m")
  /\ (60 <= m < 600 ->
      formatPlaytime (Num m)
      = numberToString (m / 60) ++ "h " ++ numberToString (m mod 60) ++ "m")
  /\ (600 <= m -> formatPlaytime (Num m) = numberToString (m / 60) ++ "h")
  /\ (m < 0 ->
      formatPlaytime (Num m)
      = numberToString (m / 60) ++ "h " ++ numberToString (Z.rem m 60) ++ "m").
Proof.
  intros _. unfold formatPlaytime. repeat split; intros H.
  - destruct (Z.eqb_spec m 0); [lia |].
    cbv zeta. rewrite (Z.div_small m 60) by lia. reflexivity.
  - destruct (Z.eqb_spec m 0); [lia |]. cbv zeta.
    assert (H1 : 1 <= m / 60) by (apply Z.div_le_lower_bound; lia).
    assert (H2 : m / 60 < 10) by (apply Z.div_lt_upper_bound; lia).
    destruct (Z.eqb_spec (m / 60) 0); [lia |].
    destruct (Z.ltb_spec (m / 60) 10); [| lia].
    now rewrite Z.rem_mod_nonneg by lia.
  - destruct (Z.eqb_spec m 0); [lia |]. cbv zeta.
    assert (H1 : 10 <= m / 60) by (apply Z.div_le_lower_bound; lia).
    destruct (Z.eqb_spec (m / 60) 0); [lia |].
    destruct (Z.ltb_spec (m / 60) 10); [lia | reflexivity].
  - destruct (Z.eqb_spec m 0); [lia |]. cbv zeta.
    assert (H1 : m / 60 < 0) by (apply Z.div_lt_upper_bound; lia).
    destruct (Z.eqb_spec (m / 60) 0); [lia |].
    destruct (Z.ltb_spec (m / 60) 10); [reflexivity | lia].
Qed.

Lemma formatPlaytime_by_range_witness :
  formatPlaytime (Num 125)
  = numberToString (125 / 60) ++ "h " ++ numberToString (125 mod 60) ++ "m".
Proof.
  refine (proj1 (proj2 (formatPlaytime_by_range 125 _)) _); lia.
Defined.

Example playtimes_rendered :
  map (fun m => formatPlaytime (Num m)) [1; 59; 60; 599; 600; -5]
  = ["1m"; "59m"; "1h 0m"; "9h 59m"; "10h"; "-1h -5m"].
Proof. vm_compute. reflexivity. Qed.

Section Search.

Lemma includes_empty (s : string) : includes s "" = true.
Proof. now destruct s. Qed.

Lemma catalog_titles_strings (E : Env) (games : list entry) :
  fetchAllGames E = Some games ->
  Forall (fun g => exists t, title g = Str t) games.
Proof.
  apply catalog_Forall.
  intros base lib files m e _ _ _ _ _ _ Hm.
  destruct (processManifest_accepted _ _ _ _ _ Hm)
    as [data [info [id [dir [_ [_ [_ [_ [_ [Hgame [_ [_ ->]]]]]]]]]]]].
  destruct (isActualGame_passed _ _ Hgame)
    as [name [_ [_ [Hname [Hblank _]]]]].
  exists name. simpl. rewrite Hname. apply orDefault_truthy. simpl.
  destruct name; [now elim Hblank | reflexivity].
Qed.

Lemma filterGames_filter (games : list entry) (searchTerm : string) :
  Forall (fun g => exists t, title g = Str t) games ->
  filterGames games searchTerm
  = Some (filter (fun g => match title g with
                           | Str t => includes (toLowerCase t)
                                               (toLowerCase searchTerm)
                           | Obj _ => false
                           end) games).
Proof.
  intros H. unfold filterGames. apply filterM_total.
  rewrite Forall_forall in H. intros g Hin.
  destruct (H g Hin) as [t Ht]. unfold titleIncludes. now rewrite Ht.
Qed.

End Search.

(** X21.  The search over a catalog never throws; it keeps exactly the
    games whose lower-cased title contains the lower-cased term, in their
    order: so the empty term keeps all games, and a game whose title
    contains the term as typed is found when title and term are ASCII. *)
Theorem search_finds_titles_containing_term
  (E : Env) (games : list entry) (searchTerm : string) :
  fetchAllGames E = Some games ->
  exists found,
    filterGames games searchTerm = Some found
    /\ (forall g, In g found <->
                  In g games /\ exists t, title g = Str t /\
                    includes (toLowerCase t) (toLowerCase searchTerm) = true)
    /\ (forall g t, In g games -> title g = Str t ->
                    isAscii t = true -> isAscii searchTerm = true ->
                    includes t searchTerm = true -> In g found)
    /\ (searchTerm = "" -> found = games).
Proof.
  intros Hrun.
  pose proof (catalog_titles_strings E games Hrun) as Htitles.
  eexists. split; [apply (filterGames_filter games searchTerm Htitles) |].
  split; [| split].
  - intros g. rewrite filter_In. split.
    + intros [Hin Hmatch]. split; [exact Hin |].
      destruct (title g) as [t | fields]; [| discriminate].
      now exists t.
    + intros [Hin [t [Ht Hmatch]]]. split; [exact Hin |]. now rewrite Ht.
  - intros g t Hin Ht _ _ Hinc. apply filter_In. split; [exact Hin |].
    rewrite Ht. now apply includes_toLowerCase.
  - intros ->. simpl toLowerCase.
    rewrite Forall_forall in Htitles.
    apply forallb_filter_id. apply forallb_forall. intros g Hin.
    destruct (Htitles g Hin) as [t ->]. apply includes_empty.
Qed.

Lemma search_finds_titles_containing_term_witness :
  exists found,
    option_map (fun games => filterGames games "PORTAL 2") (fetchAllGames twoTitles)
    = Some (Some found)
    /\ map title found = [Str "Portal 2"].
Proof.
  destruct (fetchAllGames twoTitles) as [games |] eqn:Hrun.
  - destruct (search_finds_titles_containing_term twoTitles games "PORTAL 2" Hrun)
      as [found [Hfound _]].
    exists found. simpl. rewrite Hfound. split; [reflexivity |].
    vm_compute in Hrun. injection Hrun as <-.
    vm_compute in Hfound. injection Hfound as <-. reflexivity.
  - vm_compute in Hrun. discriminate Hrun.
Defined.
